(** * ResourceScout: the request router, the generation backend and the
      retrieval collaborator, embedded from [service.py], [core/llm.py] and
      [core/retrieval.py].

    Conventions of the embedding.

    - A Python [str] is held as its UTF-8 encoding, a [string] of bytes.
      Operations that count characters ([s[:n]], [strip], indexing) are
      written UTF-8 aware; operations that look for a substring ([in],
      [split], [replace]) and [urllib.parse.quote], which works on the UTF-8
      bytes itself, are written on the bytes. A str with a lone surrogate
      has no UTF-8 encoding and is outside the embedding.
    - A value whose Python type is not fixed by the code (what [json.loads]
      gives back, what a search provider puts in a result) is a [value].
    - The outside world (the Gemini models, [json.loads], the two search
      providers) is a record of oracles, [Env]. An oracle answers according
      to the history of calls made so far, so that it may fail on one attempt
      and succeed on the next.
    - Code runs in a state-and-exception monad [M] whose state is that
      history: the trace of calls to the outside world and of [time.sleep].
      [print] writes nothing the program reads back and is left out.
    - Streamlit's [st.cache_data] belongs to the outside world too: when a
      cached function is called, the cache either holds nothing for the
      arguments, and the function runs, or it replays what an earlier
      identical call returned, and nothing runs. [st.cache_resource] keeps
      the handler of an API key; a handler holds nothing but the key, so a
      kept handler and a new one are the same value. *)

From Stdlib Require Import ZArith NArith String Ascii List Bool Lia.
From Stdlib Require Import Floats.SpecFloat.
From stdpp Require Import base option gmap strings list.

Set Warnings "-register-all".

Local Open Scope string_scope.
Local Open Scope list_scope.
Local Open Scope Z_scope.

(** ** Python strings *)

Module Str.

Definition byte_of (c : ascii) : N := N_of_ascii c.

(** [p] is a prefix of [s]: [s.startswith(p)]. *)
Fixpoint startswith (p s : string) : bool :=
  match p, s with
  | EmptyString, _ => true
  | String a p', String b s' => if Ascii.eqb a b then startswith p' s' else false
  | String _ _, EmptyString => false
  end.

Fixpoint drop (n : nat) (s : string) : string :=
  match n, s with
  | O, _ => s
  | S _, EmptyString => EmptyString
  | S n', String _ s' => drop n' s'
  end.

(** [sub in s]. *)
Fixpoint contains (sub s : string) : bool :=
  startswith sub s ||
  match s with
  | EmptyString => false
  | String _ s' => contains sub s'
  end.

(** [s.partition(sep)] when [sep] occurs: the text before the first
    occurrence and the text after it. *)
Fixpoint partition (sep s : string) : option (string * string) :=
  if startswith sep s then Some (EmptyString, drop (String.length sep) s)
  else match s with
       | EmptyString => None
       | String c s' =>
           match partition sep s' with
           | Some (a, b) => Some (String c a, b)
           | None => None
           end
       end.

(** [s.split(sep)] for a non-empty [sep]: cut at the occurrences of [sep],
    found from left to right without overlap. Every cut shortens the rest,
    so [String.length s] rounds are enough. *)
Fixpoint split_fuel (fuel : nat) (sep s : string) : list string :=
  match fuel with
  | O => [s]
  | S n =>
      match partition sep s with
      | None => [s]
      | Some (a, b) => a :: split_fuel n sep b
      end
  end.

Definition split (sep s : string) : list string :=
  split_fuel (String.length s) sep s.

(** [sep.join(parts)]. *)
Fixpoint join (sep : string) (parts : list string) : string :=
  match parts with
  | [] => EmptyString
  | [p] => p
  | p :: rest => p +:+ sep +:+ join sep rest
  end.

(** [s.replace(old, new)] for a non-empty [old]. *)
Definition replace (old new s : string) : string :=
  join new (split old s).

(** *** Characters *)

(** A UTF-8 continuation byte, [10xxxxxx]. *)
Definition is_continuation (c : ascii) : bool :=
  ((128 <=? byte_of c) && (byte_of c <? 192))%N.

(** [s[:n]]: the first [n] characters. A character is a lead byte and the
    continuation bytes after it. *)
Fixpoint slice_to (n : N) (s : string) : string :=
  match s with
  | EmptyString => EmptyString
  | String c s' =>
      if is_continuation c then String c (slice_to n s')
      else if (n =? 0)%N then EmptyString
           else String c (slice_to (n - 1) s')
  end.

(** The characters [str.isspace] accepts, by their UTF-8 bytes:
    U+0009..U+000D, U+001C..U+0020; U+0085, U+00A0; U+1680, U+2000..U+200A,
    U+2028, U+2029, U+202F, U+205F, U+3000. *)
Definition space1 (a : N) : bool :=
  ((9 <=? a) && (a <=? 13) || (28 <=? a) && (a <=? 32))%N.

Definition space2 (a b : N) : bool :=
  ((a =? 194) && ((b =? 133) || (b =? 160)))%N.

Definition space3 (a b c : N) : bool :=
  ((a =? 225) && (b =? 154) && (c =? 128)
   || (a =? 226) && (b =? 128)
      && ((128 <=? c) && (c <=? 138) || (c =? 168) || (c =? 169) || (c =? 175))
   || (a =? 226) && (b =? 129) && (c =? 159)
   || (a =? 227) && (b =? 128) && (c =? 128))%N.

(** [s.lstrip()]. *)
Fixpoint lstrip (s : string) : string :=
  match s with
  | EmptyString => EmptyString
  | String a s1 =>
      if space1 (byte_of a) then lstrip s1
      else match s1 with
           | EmptyString => s
           | String b s2 =>
               if space2 (byte_of a) (byte_of b) then lstrip s2
               else match s2 with
                    | EmptyString => s
                    | String c s3 =>
                        if space3 (byte_of a) (byte_of b) (byte_of c)
                        then lstrip s3 else s
                    end
           end
  end.

(** The same from the end, on the reversed bytes. *)
Fixpoint lstrip_rev (r : list ascii) : list ascii :=
  match r with
  | [] => []
  | c :: r1 =>
      if space1 (byte_of c) then lstrip_rev r1
      else match r1 with
           | [] => r
           | b :: r2 =>
               if space2 (byte_of b) (byte_of c) then lstrip_rev r2
               else match r2 with
                    | [] => r
                    | a :: r3 =>
                        if space3 (byte_of a) (byte_of b) (byte_of c)
                        then lstrip_rev r3 else r
                    end
           end
  end.

(** [s.rstrip()]. *)
Definition rstrip (s : string) : string :=
  string_of_list_ascii (rev (lstrip_rev (rev (list_ascii_of_string s)))).

(** [s.strip()]. *)
Definition strip (s : string) : string := rstrip (lstrip s).

(** [s.encode('ascii')] succeeds. *)
Definition is_ascii (s : string) : bool :=
  forallb (fun c => (byte_of c <? 128)%N) (list_ascii_of_string s).

Definition ascii_lower_char (c : ascii) : ascii :=
  if ((65 <=? byte_of c) && (byte_of c <=? 90))%N
  then ascii_of_N (byte_of c + 32) else c.

Fixpoint ascii_lower (s : string) : string :=
  match s with
  | EmptyString => EmptyString
  | String c s' => String (ascii_lower_char c) (ascii_lower s')
  end.

(** *** [urllib.parse.quote(s)], with its default [safe='/'] *)

Definition hex_digit (n : N) : ascii :=
  if (n <? 10)%N then ascii_of_N (48 + n) else ascii_of_N (55 + n).

Definition is_alnum (a : N) : bool :=
  ((48 <=? a) && (a <=? 57) || (65 <=? a) && (a <=? 90)
   || (97 <=? a) && (a <=? 122))%N.

(** Letters, digits, [_.-~] are never quoted; [/] is the default [safe]. *)
Definition quote_keeps (a : N) : bool :=
  (is_alnum a || (a =? 95) || (a =? 46) || (a =? 45) || (a =? 126)
   || (a =? 47))%N.

Fixpoint quote (s : string) : string :=
  match s with
  | EmptyString => EmptyString
  | String c s' =>
      if quote_keeps (byte_of c) then String c (quote s')
      else String "%" (String (hex_digit (byte_of c / 16))
                         (String (hex_digit (byte_of c mod 16)) (quote s')))
  end.

Definition nl : string := String (ascii_of_nat 10) EmptyString.
Definition dq : string := String (ascii_of_nat 34) EmptyString.

(** A text given line by line. *)
Definition lines (ls : list string) : string := join nl ls.

End Str.

(** ** Python values, exceptions and results *)

(** What [json.loads] can return, and what a provider may put in a result
    entry: [None], a bool, an int, a float, a str, a list, a dict with
    string keys. *)
Inductive value :=
| VNone
| VBool (b : bool)
| VInt (z : Z)
| VFloat (f : spec_float)
| VStr (s : string)
| VList (l : list value)
| VDict (d : gmap string value).

(** A Python [dict] with string keys. *)
Abbreviation dict := (gmap string value).

(** An exception: its class and [str(e)]. *)
Record exn := Exn { exn_class : string; exn_msg : string }.

Inductive outcome (A : Type) :=
| Ok (a : A)
| Raise (e : exn).
Arguments Ok {A} a.
Arguments Raise {A} e.

#[global] Instance outcome_ret : MRet outcome := fun A a => Ok a.
#[global] Instance outcome_bind : MBind outcome := fun A B f m =>
  match m with
  | Ok a => f a
  | Raise e => Raise e
  end.

(** [type(v).__name__]. *)
Definition type_name (v : value) : string :=
  match v with
  | VNone => "NoneType"
  | VBool _ => "bool"
  | VInt _ => "int"
  | VFloat _ => "float"
  | VStr _ => "str"
  | VList _ => "list"
  | VDict _ => "dict"
  end.

Definition AttributeError (v : value) (attr : string) : exn :=
  Exn "AttributeError"
      ("'" +:+ type_name v +:+ "' object has no attribute '" +:+ attr +:+ "'").

Definition KeyError (key : string) : exn :=
  Exn "KeyError" ("'" +:+ key +:+ "'").

Definition IndexError (v : value) : exn :=
  Exn "IndexError"
      (match v with VStr _ => "string" | _ => type_name v end
       +:+ " index out of range").

Definition TypeError (msg : string) : exn := Exn "TypeError" msg.

(** [bool(v)], as [if not v] tests it. *)
Definition truthy (v : value) : bool :=
  match v with
  | VNone => false
  | VBool b => b
  | VInt z => negb (z =? 0)%Z
  | VFloat (S754_zero _) => false
  | VFloat _ => true
  | VStr EmptyString => false
  | VStr _ => true
  | VList [] => false
  | VList _ => true
  | VDict d => match map_to_list d with [] => false | _ => true end
  end.

(** [v == s] for a str [s]: only a str equals a str. *)
Definition eq_str (v : value) (s : string) : bool :=
  match v with
  | VStr t => String.eqb t s
  | _ => false
  end.

(** [v.get(key, default)]: a method of dicts only. *)
Definition py_get (v : value) (key : string) (dflt : value) : outcome value :=
  match v with
  | VDict d => Ok (default dflt (d !! key))
  | _ => Raise (AttributeError v "get")
  end.

(** [v[key]] for a str [key]. *)
Definition getitem (v : value) (key : string) : outcome value :=
  match v with
  | VDict d =>
      match d !! key with
      | Some x => Ok x
      | None => Raise (KeyError key)
      end
  | VList _ => Raise (TypeError "list indices must be integers or slices, not str")
  | VStr _ => Raise (TypeError "string indices must be integers, not 'str'")
  | _ => Raise (TypeError ("'" +:+ type_name v +:+ "' object is not subscriptable"))
  end.

(** [v[0]]. A dict from the providers or from JSON has string keys only. *)
Definition getitem0 (v : value) : outcome value :=
  match v with
  | VList (x :: _) => Ok x
  | VList [] => Raise (IndexError v)
  | VStr EmptyString => Raise (IndexError v)
  | VStr s => Ok (VStr (Str.slice_to 1 s))
  | VDict _ => Raise (Exn "KeyError" "0")
  | _ => Raise (TypeError ("'" +:+ type_name v +:+ "' object is not subscriptable"))
  end.

(** ** The outside world *)

(** The two Gemini models of a handler. *)
Inductive model := json_model | text_model.

(** What [model.generate_content] returns: an object whose [text] property
    gives the generated text or raises. *)
Record response := Response { text : outcome string }.

(** The calls the program makes to the outside world, and its sleeps. *)
Inductive event :=
| EvGenerate (m : model) (prompt : string)
| EvSleep (seconds : Z)
| EvYoutubeSearch (query : value) (max_results : Z)
| EvDDGS (query : value) (region : string) (max_results : Z).

Abbreviation trace := (list event).

(** The collaborators. Each network oracle is given the trace so far. *)
Class Env := {
  (** [model.generate_content(prompt)] *)
  generate_content : trace -> model -> string -> outcome response;
  (** [json.loads(s)] *)
  json_loads : string -> outcome value;
  (** [YoutubeSearch(query, max_results=max_results).to_dict()] *)
  YoutubeSearch : trace -> value -> Z -> outcome (list value);
  (** [DDGS().text(query, region=region, max_results=max_results)], as a list *)
  DDGS_text : trace -> value -> string -> Z -> outcome (list value);
  (** [s.lower()] on a str that is not pure ASCII *)
  unicode_lower : string -> string;
  (** [str(v)] on a value that is not a str *)
  str_of_other : value -> string;
  (** What [st.cache_data] holds for [cached_video_search(query)]: [None] on
      a miss; on a hit, the history at which the call it replays was made *)
  video_cache : trace -> value -> option trace;
  (** The same for [cached_web_search(query, category)] *)
  web_cache : trace -> value -> value -> option trace;
}.

(** [str(v)], and what [f"{v}"] inserts. *)
Definition py_str `{Env} (v : value) : string :=
  match v with
  | VStr s => s
  | _ => str_of_other v
  end.

(** [s.lower()]. *)
Definition lower `{Env} (s : string) : string :=
  if Str.is_ascii s then Str.ascii_lower s else unicode_lower s.

(** ** The monad of the program: a trace, and exceptions *)

Definition M (A : Type) : Type := trace -> outcome A * trace.

#[global] Instance M_ret : MRet M := fun A a tr => (Ok a, tr).
#[global] Instance M_bind : MBind M := fun A B f m tr =>
  match m tr with
  | (Ok a, tr') => f a tr'
  | (Raise e, tr') => (Raise e, tr')
  end.

Definition raise {A} (e : exn) : M A := fun tr => (Raise e, tr).

(** A pure step that may raise. *)
Definition lift {A} (o : outcome A) : M A := fun tr => (o, tr).

(** [try: m except Exception as e: ...]: the handler gets the outcome. *)
Definition try_ {A} (m : M A) : M (outcome A) := fun tr =>
  let (r, tr') := m tr in (Ok r, tr').

(** A call to the outside: answered from the trace so far, then recorded. *)
Definition call {A} (answer : trace -> outcome A) (ev : event) : M A :=
  fun tr => (answer tr, tr ++ [ev]).

(** [@st.cache_data] around [f]: a hit replays what [f] returned at the
    earlier call and runs nothing; a miss runs [f]. Only a value that was
    returned is kept: a call that raised left nothing to replay. *)
Definition st_cache_data {A} (hit : trace -> option trace) (f : M A) : M A :=
  fun tr =>
    match hit tr with
    | Some earlier =>
        match fst (f earlier) with
        | Ok a => (Ok a, tr)
        | Raise _ => f tr
        end
    | None => f tr
    end.

(** [time.sleep(seconds)]. *)
Definition sleep (seconds : Z) : M unit :=
  fun tr => (Ok tt, tr ++ [EvSleep seconds]).

(** ** [core/llm.py] *)

(** The dataclass [ResourceResult]. Its constructor defaults ([category]
    "general", [book] [None], [videos] and [articles] empty) are written out
    where a result is built. No field is validated: [explanation], [category]
    and [book] hold whatever they are given. *)
Record ResourceResult := {
  explanation : value;
  category : value;
  book : value;
  videos : list dict;
  articles : list dict;
}.

(** A handler. With an API key its constructor configures the SDK and builds
    the two model objects, which makes no request; the models are named by
    [model]. *)
Record GeminiHandler := { api_key : string }.

(** [range(n)]. *)
Definition range (n : Z) : list Z := map Z.of_nat (seq 0 (Z.to_nat n)).

Section Llm.
Context `{Env}.

(** ["429" in str(e) or "Quota" in str(e)]. *)
Definition is_quota_error (e : exn) : bool :=
  Str.contains "429" (exn_msg e) || Str.contains "Quota" (exn_msg e).

(** The [for attempt in range(retries)] loop of [_generate_with_retry],
    over the attempts still to make. *)
Fixpoint retry_loop (attempts : list Z) (retries : Z) (m : model)
    (prompt : string) : M (option response) :=
  match attempts with
  | [] => mret None
  | attempt :: rest =>
      r ← try_ (call (fun tr => generate_content tr m prompt) (EvGenerate m prompt));
      match r with
      | Ok res => mret (Some res)
      | Raise e =>
          if is_quota_error e then
            if (attempt <? retries - 1)%Z then
              let wait_time := (attempt + 1) * 5 in
              _ ← sleep wait_time;
              retry_loop rest retries m prompt
            else raise e
          else raise e
      end
  end.

Definition _generate_with_retry (self : GeminiHandler) (m : model)
    (prompt : string) (retries : Z) : M (option response) :=
  retry_loop (range retries) retries m prompt.

(** [res.text], where [res] is [None] if the loop fell through. *)
Definition res_text (res : option response) : M string :=
  match res with
  | Some r => lift (text r)
  | None => raise (AttributeError VNone "text")
  end.

Definition analyze_prompt (query context : string) : string :=
  Str.lines [
    EmptyString;
    "        Role: ResourceScout, a helpful and encouraging academic research assistant.";
    "        Query: " +:+ query;
    "        Context: " +:+ Str.slice_to 50000 context;
    "        ";
    "        Instructions:";
    "        1. If the user input is a greeting (hi, hello), gratitude (thanks), or small talk:";
    "           - Set " +:+ Str.dq +:+ "category" +:+ Str.dq +:+ " to "
      +:+ Str.dq +:+ "chat" +:+ Str.dq +:+ ".";
    "           - Write a warm, friendly response in " +:+ Str.dq +:+ "explanation"
      +:+ Str.dq +:+ " (e.g., " +:+ Str.dq
      +:+ "You're welcome! Happy to help you learn." +:+ Str.dq +:+ ").";
    "           - Set other fields to null.";
    "           ";
    "        2. If the user input is an educational question:";
    "           - Set " +:+ Str.dq +:+ "category" +:+ Str.dq +:+ " to "
      +:+ Str.dq +:+ "cs" +:+ Str.dq +:+ ", " +:+ Str.dq +:+ "math" +:+ Str.dq
      +:+ ", " +:+ Str.dq +:+ "science" +:+ Str.dq +:+ ", or "
      +:+ Str.dq +:+ "general" +:+ Str.dq +:+ ".";
    "           - Generate the research queries as usual.";
    "        ";
    "        Return JSON: {";
    "            " +:+ Str.dq +:+ "category" +:+ Str.dq +:+ ": " +:+ Str.dq
      +:+ "cs|math|science|general|chat" +:+ Str.dq +:+ ",";
    "            " +:+ Str.dq +:+ "explanation" +:+ Str.dq +:+ ": " +:+ Str.dq
      +:+ "Detailed academic summary (approx 200 words) OR friendly chat response."
      +:+ Str.dq +:+ ",";
    "            " +:+ Str.dq +:+ "book" +:+ Str.dq +:+ ": " +:+ Str.dq
      +:+ "Standard textbook title (or null if chat)." +:+ Str.dq +:+ ",";
    "            " +:+ Str.dq +:+ "youtube_query" +:+ Str.dq +:+ ": " +:+ Str.dq
      +:+ "Search query for video (or null if chat)." +:+ Str.dq +:+ ",";
    "            " +:+ Str.dq +:+ "web_query" +:+ Str.dq +:+ ": " +:+ Str.dq
      +:+ "Search query for articles (or null if chat)." +:+ Str.dq;
    "        }";
    "        "
  ].

Definition analyze_query (self : GeminiHandler) (query context : string)
    : M value :=
  if negb (truthy (VStr (api_key self))) then mret VNone
  else
    let prompt := analyze_prompt query context in
    r ← try_ (res ← _generate_with_retry self json_model prompt 3;
              t ← res_text res;
              lift (json_loads t));
    match r with
    | Ok data => mret data
    | Raise e => mret VNone
    end.

Definition generate_text (self : GeminiHandler) (prompt : string) : M string :=
  if negb (truthy (VStr (api_key self))) then mret "API Key missing."
  else
    r ← try_ (res ← _generate_with_retry self text_model prompt 3;
              res_text res);
    match r with
    | Ok t => mret t
    | Raise e => mret ("Generation failed: " +:+ exn_msg e)
    end.

End Llm.

(** ** [core/retrieval.py] *)

Definition TRUSTED_SITES : gmap string (list string) :=
  {[ "cs" := [ "geeksforgeeks.org"; "w3schools.com"; "freecodecamp.org";
               "stackoverflow.com"; "realpython.com"; "medium.com";
               "tutorialspoint.com" ];
     "math" := [ "khanacademy.org"; "wolfram.com"; "brilliant.org";
                 "libretexts.org"; "tutorial.math.lamar.edu" ];
     "physics" := [ "physicsclassroom.com"; "hyperphysics.phy-astr.gsu.edu";
                    "britannica.com"; "nasa.gov"; "cern.ch" ];
     "general" := [ "britannica.com"; "bbc.com"; "nytimes.com";
                    "investopedia.com" ] ]}.

(** [text.encode('ascii')] succeeds; a [UnicodeEncodeError] gives [False],
    and a [text] that is no str has no [encode]. *)
Definition is_english (text : value) : outcome bool :=
  match text with
  | VStr s => Ok (Str.is_ascii s)
  | _ => Raise (AttributeError text "encode")
  end.

Section Retrieval.
Context `{Env}.

(** The dict [search_youtube] appends for the result [r]. *)
Definition video_entry (r : value) : outcome dict :=
  id ← getitem r "id";
  title ← getitem r "title";
  thumbnails ← getitem r "thumbnails";
  thumb ← getitem0 thumbnails;
  mret ({[ "url" := VStr ("https://www.youtube.com/watch?v=" +:+ py_str id);
           "title" := title;
           "thumb" := thumb ]} : dict).

(** [for r in results: videos.append(...)]. An exception leaves the loop
    with what [videos] holds by then. *)
Fixpoint append_videos (results : list value) (videos : list dict)
    : list dict * option exn :=
  match results with
  | [] => (videos, None)
  | r :: rest =>
      match video_entry r with
      | Ok v => append_videos rest (videos ++ [v])
      | Raise e => (videos, Some e)
      end
  end.

Definition search_youtube (query : value) (max_results : Z) : M (list dict) :=
  let videos := [] in
  r ← try_ (call (fun tr => YoutubeSearch tr query max_results)
                 (EvYoutubeSearch query max_results));
  match r with
  | Ok results => mret (fst (append_videos results videos))
  | Raise e => mret videos
  end.

(** [if is_english(r['title']): links.append({...})], for one [r]. *)
Definition link_entry (r : value) : outcome (option dict) :=
  title ← getitem r "title";
  english ← is_english title;
  if english : bool then
    href ← getitem r "href";
    mret (Some ({[ "title" := title; "link" := href ]} : dict))
  else mret None.

(** [for r in results: ...], both in the trusted and in the general
    search. An exception leaves the loop with what [links] holds by then. *)
Fixpoint append_links (results : list value) (links : list dict)
    : list dict * option exn :=
  match results with
  | [] => (links, None)
  | r :: rest =>
      match link_entry r with
      | Ok (Some a) => append_links rest (links ++ [a])
      | Ok None => append_links rest links
      | Raise e => (links, Some e)
      end
  end.

(** [TRUSTED_SITES.get(category.lower(), TRUSTED_SITES["general"])]. *)
Definition trusted_domains (category : value) : outcome (list string) :=
  match category with
  | VStr c => Ok (default (TRUSTED_SITES !!! "general") (TRUSTED_SITES !! lower c))
  | _ => Raise (AttributeError category "lower")
  end.

Definition site_string (domains : list string) : string :=
  Str.join " OR " (map (fun d => "site:" +:+ d) (take 4 domains)).

Definition smart_query (query : value) (domains : list string) : string :=
  py_str query +:+ " (" +:+ site_string domains +:+ ")".

(** Strategy B and the final [return links]. *)
Definition general_fallback (query : value) (links : list dict)
    : M (list dict) :=
  match links with
  | [] =>
      r ← try_ (call (fun tr => DDGS_text tr query "us-en" 5)
                     (EvDDGS query "us-en" 5));
      match r with
      | Ok results => mret (fst (append_links results links))
      | Raise e => mret links
      end
  | _ => mret links
  end.

Definition search_web (query category : value) : M (list dict) :=
  domains ← lift (trusted_domains category);
  let links := [] in
  r ← try_ (call (fun tr => DDGS_text tr (VStr (smart_query query domains)) "us-en" 4)
                 (EvDDGS (VStr (smart_query query domains)) "us-en" 4));
  match r with
  | Ok results =>
      match append_links results links with
      | (links, None) =>
          match links with
          | _ :: _ => mret links
          | [] => general_fallback query links
          end
      | (links, Some e) => general_fallback query links
      end
  | Raise e => general_fallback query links
  end.

End Retrieval.

(** ** [service.py] *)

Definition CMD_SUMMARIZE : string := "Summarize the uploaded documents.".
Definition CMD_QUIZ : string := "Generate a quiz based on the context.".

(** [urllib.parse.quote(topic)]; anything but a str (or bytes) is refused. *)
Definition urllib_quote (topic : value) : outcome string :=
  match topic with
  | VStr s => Ok (Str.quote s)
  | _ => Raise (TypeError "quote_from_bytes() expected bytes")
  end.

Section Service.
Context `{Env}.

Definition cached_video_search (query : value) : M (list dict) :=
  st_cache_data (fun tr => video_cache tr query) (search_youtube query 2).

Definition cached_web_search (query category : value) : M (list dict) :=
  st_cache_data (fun tr => web_cache tr query category) (search_web query category).

Definition get_llm_handler (api_key : string) : GeminiHandler :=
  {| api_key := api_key |}.

(** The helper local to [handle_request]. *)
Definition ensure_links (topic : value) (current_links : list dict)
    : outcome (list dict) :=
  match current_links with
  | [] =>
      safe_topic ← urllib_quote topic;
      mret [ ({[ "title" := VStr ("📖 Learn '" +:+ py_str topic +:+ "' on Khan Academy");
                 "link" := VStr ("https://www.khanacademy.org/search?page_search_query="
                                 +:+ safe_topic) ]} : dict);
             ({[ "title" := VStr ("🎓 Academic Papers: " +:+ py_str topic);
                 "link" := VStr ("https://scholar.google.com/scholar?q="
                                 +:+ safe_topic) ]} : dict) ]
  | _ => mret current_links
  end.

Definition summarize_prompt (context : string) : string :=
  Str.lines [
    EmptyString;
    "        Analyze the document and extract the Technical Syllabus.";
    "        Ignore admin details. Focus on core modules.";
    "        ";
    "        Format:";
    "        1. List 3-5 key technical modules.";
    "        2. Briefly explain sub-topics.";
    "        ";
    "        CRITICAL: On the very last line, output the search tag like this:";
    "        SEARCH_QUERY: <Insert the hardest technical topic here>";
    "        ";
    "        Document Context:";
    "        " +:+ Str.slice_to 20000 context;
    "        "
  ].

Definition quiz_prompt (context : string) : string :=
  "Create a 3-question quiz based on:" +:+ Str.nl +:+ Str.slice_to 5000 context.

Definition fallback_prompt (query context : string) : string :=
  "Context: " +:+ Str.slice_to 10000 context +:+ Str.nl +:+ Str.nl
  +:+ "User Request: " +:+ query.

(** [parts[i]]. *)
Definition index (parts : list string) (i : nat) : outcome string :=
  match parts !! i with
  | Some p => Ok p
  | None => Raise (Exn "IndexError" "list index out of range")
  end.

(** The lines of route 1 between the generation and the searches: the
    summary and the search topic cut out of the generated text. *)
Definition summary_and_topic (full_response : string) : outcome (string * string) :=
  let clean_response :=
    Str.replace "**SEARCH_QUERY:**" "SEARCH_QUERY:" full_response in
  let search_topic := "Computer Science Core" in
  let summary_text := full_response in
  if Str.contains "SEARCH_QUERY:" clean_response then
    let parts := Str.split "SEARCH_QUERY:" clean_response in
    p0 ← index parts 0;
    p1 ← index parts 1;
    mret (Str.strip p0, Str.strip p1)
  else mret (summary_text, search_topic).

Definition handle_request (query context api_key : string) : M ResourceResult :=
  let handler := get_llm_handler api_key in
  if String.eqb query CMD_SUMMARIZE then
    let prompt := summarize_prompt context in
    full_response ← generate_text handler prompt;
    '(summary_text, search_topic) ← lift (summary_and_topic full_response);
    videos ← cached_video_search (VStr search_topic);
    raw_articles ← cached_web_search (VStr search_topic) (VStr "cs");
    articles ← lift (ensure_links (VStr search_topic) raw_articles);
    mret {| explanation := VStr summary_text;
            category := VStr "Syllabus";
            book := VNone;
            videos := videos;
            articles := articles |}
  else if String.eqb query CMD_QUIZ then
    text ← generate_text handler (quiz_prompt context);
    mret {| explanation := VStr text;
            category := VStr "Quiz";
            book := VNone;
            videos := [];
            articles := [] |}
  else
    data ← analyze_query handler query context;
    if negb (truthy data) then
      fallback_text ← generate_text handler (fallback_prompt query context);
      videos ← cached_video_search (VStr query);
      raw_articles ← cached_web_search (VStr query) (VStr "general");
      articles ← lift (ensure_links (VStr query) raw_articles);
      mret {| explanation := VStr fallback_text;
              category := VStr "general";
              book := VNone;
              videos := videos;
              articles := articles |}
    else
      cat ← lift (py_get data "category" VNone);
      if eq_str cat "chat" then
        expl ← lift (py_get data "explanation" (VStr "Hello!"));
        mret {| explanation := expl;
                category := VStr "chat";
                book := VNone;
                videos := [];
                articles := [] |}
      else
        yt ← lift (py_get data "youtube_query" VNone);
        let yt_query := if negb (truthy yt) then VStr query else yt in
        videos ← cached_video_search yt_query;
        web ← lift (py_get data "web_query" VNone);
        let web_query := if negb (truthy web) then VStr query else web in
        cat_arg ← lift (py_get data "category" (VStr "general"));
        raw_articles ← cached_web_search web_query cat_arg;
        articles ← lift (ensure_links web_query raw_articles);
        expl ← lift (py_get data "explanation" (VStr EmptyString));
        cat_out ← lift (py_get data "category" (VStr "general"));
        book_out ← lift (py_get data "book" VNone);
        mret {| explanation := expl;
                category := cat_out;
                book := book_out;
                videos := videos;
                articles := articles |}.

End Service.

(** ** Reading a trace *)

Definition is_generate (ev : event) : bool :=
  match ev with EvGenerate _ _ => true | _ => false end.

Definition is_youtube (ev : event) : bool :=
  match ev with EvYoutubeSearch _ _ => true | _ => false end.

Definition is_ddgs (ev : event) : bool :=
  match ev with EvDDGS _ _ _ => true | _ => false end.

(** A call to one of the two search providers. *)
Definition is_search (ev : event) : bool := is_youtube ev || is_ddgs ev.

(** How many events of a trace satisfy [p]. *)
Definition count (p : event -> bool) (tr : trace) : nat :=
  length (List.filter p tr).

(** The sleeps of a trace, in order. *)
Fixpoint sleeps (tr : trace) : list Z :=
  match tr with
  | [] => []
  | EvSleep s :: tr' => s :: sleeps tr'
  | _ :: tr' => sleeps tr'
  end.

(** The trace of [k] failed attempts that were retried, the first of them
    being attempt number [a] (counted from 0): each a call followed by a
    sleep of five seconds times the attempt's number counted from 1. *)
Definition backoff_from (m : model) (prompt : string) (a k : nat) : trace :=
  flat_map (fun i => [EvGenerate m prompt; EvSleep (Z.of_nat i * 5)]) (seq (S a) k).

Definition backoff (m : model) (prompt : string) (k : nat) : trace :=
  backoff_from m prompt 0 k.

(** The results of one web search that pass the title filter; a request that
    failed has none. *)
Definition survivors (r : outcome (list value)) : list dict :=
  match r with
  | Ok results => fst (append_links results [])
  | Raise _ => []
  end.

(** The title of an article passes [is_english]. *)
Definition english_title (a : dict) : Prop :=
  exists t, a !! "title" = Some t /\ is_english t = Ok true.

(** The link of an article contains [piece]. *)
Definition link_contains (piece : string) (a : dict) : Prop :=
  exists link, a !! "link" = Some (VStr link) /\ Str.contains piece link = true.

(** [TRUSTED_SITES["general"]]. *)
Definition general_sites : list string :=
  ["britannica.com"; "bbc.com"; "nytimes.com"; "investopedia.com"].

(** The number of characters of a text: its bytes that start one. *)
Fixpoint chars (s : string) : N :=
  match s with
  | EmptyString => 0
  | String c s' => if Str.is_continuation c then chars s' else (1 + chars s')%N
  end.

(** The tag the summarize route looks for in the generated text. *)
Definition marker : string := "SEARCH_QUERY:".

(** The text up to the next [sep], or all of it if there is none. *)
Definition until_marker (sep s : string) : string :=
  match Str.partition sep s with
  | Some (segment, _) => segment
  | None => s
  end.

(** The videos made of what the provider answered; a request that failed
    gives none. *)
Definition found_videos `{Env} (r : outcome (list value)) : list dict :=
  match r with
  | Ok results => fst (append_videos results [])
  | Raise _ => []
  end.

(** ** Scripted worlds, to run the program on *)

Module World.

Definition exhausted {A} : outcome A :=
  Raise (Exn "RuntimeError" "no answer scripted").

(** The [n]-th call to a model gets the [n]-th answer of [gen], the [n]-th
    web search the [n]-th answer of [web]; every video search gets [yt]. The
    caches are empty. *)
Definition scripted (gen : list (outcome response))
    (loads : string -> outcome value) (yt : outcome (list value))
    (web : list (outcome (list value))) : Env :=
  {| generate_content tr m prompt := nth (count is_generate tr) gen exhausted;
     json_loads := loads;
     YoutubeSearch tr query max_results := yt;
     DDGS_text tr query region max_results := nth (count is_ddgs tr) web (Ok []);
     unicode_lower s := s;
     str_of_other v := "<" +:+ type_name v +:+ ">";
     video_cache tr query := None;
     web_cache tr query category := None |}.

Definition says (t : string) : outcome response := Ok (Response (Ok t)).

Definition quota_exceeded : exn :=
  Exn "ResourceExhausted" "429 Quota exceeded for quota metric".

Definition no_json (s : string) : outcome value :=
  Raise (Exn "JSONDecodeError" "Expecting value: line 1 column 1 (char 0)").

(** One quota error, then an answer. *)
Definition busy_once : Env :=
  scripted [Raise quota_exceeded; says "ready"] no_json (Ok []) [].

(** A result of the video provider and a result of the web provider. *)
Definition video_hit (id title thumb : string) : value :=
  VDict {[ "id" := VStr id; "title" := VStr title;
           "thumbnails" := VList [VStr thumb] ]}.

Definition web_hit (title href : string) : value :=
  VDict {[ "title" := VStr title; "href" := VStr href ]}.

(** A video search that finds two videos; no model, no web results. *)
Definition two_videos : Env :=
  scripted [] no_json
    (Ok [video_hit "a1" "Sorting, part 1" "https://i.ytimg.com/a1.jpg";
         video_hit "b2" "Sorting, part 2" "https://i.ytimg.com/b2.jpg"])
    [].

(** A trusted search that finds one page with a French title and one with
    an English title. *)
Definition mixed_web : Env :=
  scripted [] no_json (Ok [])
    [Ok [web_hit "Café et théorie des graphes" "https://fr.example.org/graphes";
         web_hit "Graph theory" "https://www.britannica.com/topic/graph-theory"]].

(** A trusted search whose second result cannot be read. *)
Definition broken_web : Env :=
  scripted [] no_json (Ok [])
    [Ok [web_hit "Graph theory" "https://www.britannica.com/topic/graph-theory";
         VNone]].

(** The structured model answers with a chat object. *)
Definition chatty : Env :=
  scripted [says "{...}"]
    (fun s => Ok (VDict {[ "category" := VStr "chat";
                           "explanation" := VStr "Happy to help you learn." ]}))
    (Ok []) [].

(** The text model writes a syllabus that ends in a search tag; the video
    search finds two videos and the web searches find nothing. *)
Definition summarizer : Env :=
  scripted [says ("1. Sorting" +:+ Str.nl +:+ "2. Graphs" +:+ Str.nl
                  +:+ "**SEARCH_QUERY:** quicksort  ")]
    no_json
    (Ok [video_hit "a1" "Sorting, part 1" "https://i.ytimg.com/a1.jpg";
         video_hit "b2" "Sorting, part 2" "https://i.ytimg.com/b2.jpg"])
    [].

(** The structured model answers with a JSON array. *)
Definition json_array : Env :=
  scripted [says "[1]"] (fun s => Ok (VList [VInt 1])) (Ok []) [].

(** The structured model answers with an object whose category is null. *)
Definition null_category : Env :=
  scripted [says "{...}"]
    (fun s => Ok (VDict {[ "category" := VNone;
                           "explanation" := VStr "Recursion is ..." ]}))
    (Ok []) [].

(** The structured model answers the example of the specification: a
    science question with a book and a video query, and no web query. *)
Definition quantum : Env :=
  scripted [says "{...}"]
    (fun s => Ok (VDict {[ "category" := VStr "science";
                           "explanation" := VStr "Qubits ...";
                           "book" := VStr "QM 101";
                           "youtube_query" := VStr "quantum computing basics";
                           "web_query" := VNone ]}))
    (Ok [])
    [Ok [web_hit "Quantum computer" "https://www.britannica.com/technology/quantum-computer"]].

(** [two_videos] with a cache that holds every video search, made when
    nothing had happened yet. *)
Definition warm_video_cache : Env :=
  {| generate_content := @generate_content two_videos;
     json_loads := @json_loads two_videos;
     YoutubeSearch := @YoutubeSearch two_videos;
     DDGS_text := @DDGS_text two_videos;
     unicode_lower := @unicode_lower two_videos;
     str_of_other := @str_of_other two_videos;
     video_cache tr query := Some [];
     web_cache tr query category := None |}.

End World.

(** ** The retry helper *)

Section RetryFacts.
Context `{Env}.

Lemma backoff_from_S m prompt a k :
  backoff_from m prompt a (S k) =
  [EvGenerate m prompt; EvSleep (Z.of_nat (S a) * 5)] ++ backoff_from m prompt (S a) k.
Proof. reflexivity. Qed.

Lemma sleeps_app tr1 tr2 : sleeps (tr1 ++ tr2) = sleeps tr1 ++ sleeps tr2.
Proof.
  induction tr1 as [|ev tr1 IH]; [done|].
  destruct ev; simpl; by rewrite ?IH.
Qed.

Lemma sleeps_backoff_from m prompt a k :
  sleeps (backoff_from m prompt a k) = map (fun i => Z.of_nat i * 5) (seq (S a) k).
Proof.
  revert a. induction k as [|k IH]; intros a; [done|].
  rewrite backoff_from_S. cbn [app sleeps seq map]. by rewrite IH.
Qed.

(** One round of the loop when the call succeeds. *)
Lemma retry_loop_ok attempt rest retries m prompt tr res :
  generate_content tr m prompt = Ok res ->
  retry_loop (attempt :: rest) retries m prompt tr
  = (Ok (Some res), tr ++ [EvGenerate m prompt]).
Proof.
  intros Hgen. cbn [retry_loop]. unfold mbind, M_bind, try_, call.
  by rewrite Hgen.
Qed.

(** One round when the call fails with an error that is not retried. *)
Lemma retry_loop_raise attempt rest retries m prompt tr e :
  generate_content tr m prompt = Raise e ->
  is_quota_error e && (attempt <? retries - 1) = false ->
  retry_loop (attempt :: rest) retries m prompt tr
  = (Raise e, tr ++ [EvGenerate m prompt]).
Proof.
  intros Hgen Hno. cbn [retry_loop]. unfold mbind, M_bind, try_, call.
  rewrite Hgen. apply andb_false_iff in Hno as [-> | Hlast]; [done|].
  rewrite Hlast. by destruct (is_quota_error e).
Qed.

(** One round when the call fails with a quota error and attempts remain. *)
Lemma retry_loop_again attempt rest retries m prompt tr e :
  generate_content tr m prompt = Raise e ->
  is_quota_error e = true ->
  attempt < retries - 1 ->
  retry_loop (attempt :: rest) retries m prompt tr
  = retry_loop rest retries m prompt
      (tr ++ [EvGenerate m prompt; EvSleep ((attempt + 1) * 5)]).
Proof.
  intros Hgen Hq Hlt. cbn [retry_loop]. unfold mbind, M_bind, try_, call, sleep.
  rewrite Hgen, Hq. apply Z.ltb_lt in Hlt. rewrite Hlt.
  by rewrite <- app_assoc.
Qed.

(** [j] quota errors in a row, from attempt [a] on, with attempts left
    after them: the loop is then at attempt [a + j], after [j] sleeps. *)
Lemma retry_loop_backoff j : forall a n retries m prompt tr,
  (j < n)%nat ->
  Z.of_nat (a + n) = retries ->
  (forall i, (i < j)%nat ->
     exists e, generate_content (tr ++ backoff_from m prompt a i) m prompt = Raise e
               /\ is_quota_error e = true) ->
  retry_loop (map Z.of_nat (seq a n)) retries m prompt tr
  = retry_loop (map Z.of_nat (seq (a + j) (n - j))) retries m prompt
      (tr ++ backoff_from m prompt a j).
Proof.
  induction j as [|j IH]; intros a n retries m prompt tr Hjn Hret Hfail.
  - unfold backoff_from. cbn [seq flat_map]. rewrite app_nil_r.
    by rewrite Nat.add_0_r, Nat.sub_0_r.
  - destruct n as [|n]; [lia|].
    destruct (Hfail 0%nat) as (e & Hgen & Hq); [lia|].
    unfold backoff_from in Hgen. cbn [seq flat_map] in Hgen.
    rewrite app_nil_r in Hgen.
    cbn [seq map]. rewrite (retry_loop_again _ _ _ _ _ _ e Hgen Hq) by lia.
    rewrite (IH (S a) n retries m prompt); [| lia | lia |].
    + rewrite backoff_from_S, app_assoc.
      replace (Z.of_nat a + 1) with (Z.of_nat (S a)) by lia.
      by replace (S a + j)%nat with (a + S j)%nat by lia.
    + intros i Hi. destruct (Hfail (S i)) as (e' & Hgen' & Hq'); [lia|].
      exists e'. split; [|done].
      rewrite backoff_from_S, app_assoc in Hgen'.
      by replace (Z.of_nat a + 1) with (Z.of_nat (S a)) by lia.
Qed.

End RetryFacts.

Section RetryClaim.
Context `{Env}.

(** Whatever the model answers, the loop appends to the trace, and calls
    the model at most once per attempt it was given. *)
Lemma retry_loop_calls attempts : forall retries m prompt tr,
  exists tr', snd (retry_loop attempts retries m prompt tr) = tr ++ tr'
              /\ (count is_generate tr' <= length attempts)%nat
              /\ count is_search tr' = 0%nat.
Proof.
  induction attempts as [|attempt rest IH]; intros retries m prompt tr.
  - exists []. by rewrite app_nil_r.
  - cbn [retry_loop]. unfold mbind, M_bind, try_, call, sleep.
    destruct (generate_content tr m prompt) as [res|e].
    + exists [EvGenerate m prompt]. cbn. split_and!; [done|lia|done].
    + destruct (is_quota_error e); [destruct (attempt <? retries - 1)|].
      * destruct (IH retries m prompt
                    ((tr ++ [EvGenerate m prompt]) ++ [EvSleep ((attempt + 1) * 5)]))
          as (tr' & -> & Hn & Hs).
        exists ([EvGenerate m prompt; EvSleep ((attempt + 1) * 5)] ++ tr').
        rewrite <- !app_assoc. split_and!; [done| |done].
        cbn [app]. unfold count in *. cbn. lia.
      * exists [EvGenerate m prompt]. cbn. split_and!; [done|lia|done].
      * exists [EvGenerate m prompt]. cbn. split_and!; [done|lia|done].
Qed.

(** [k] quota errors, then an answer on attempt [k + 1], within the
    attempts allowed. *)
Lemma generate_with_retry_success self m prompt (retries k : nat) tr res :
  (k < retries)%nat ->
  (forall i, (i < k)%nat ->
     exists e, generate_content (tr ++ backoff m prompt i) m prompt = Raise e
               /\ is_quota_error e = true) ->
  generate_content (tr ++ backoff m prompt k) m prompt = Ok res ->
  _generate_with_retry self m prompt (Z.of_nat retries) tr
  = (Ok (Some res), tr ++ backoff m prompt k ++ [EvGenerate m prompt]).
Proof.
  intros Hk Hfail Hgen. unfold _generate_with_retry, range.
  rewrite Nat2Z.id.
  rewrite (retry_loop_backoff k 0 retries) by (done || lia).
  destruct (retries - k)%nat as [|n] eqn:Hn; [lia|]. cbn [seq map].
  rewrite (retry_loop_ok _ _ _ _ _ _ res) by done.
  by rewrite <- app_assoc.
Qed.

(** Quota errors on every attempt: the last one is raised. *)
Lemma generate_with_retry_exhausted self m prompt (retries : nat) tr e :
  (0 < retries)%nat ->
  (forall i, (i < retries - 1)%nat ->
     exists e', generate_content (tr ++ backoff m prompt i) m prompt = Raise e'
                /\ is_quota_error e' = true) ->
  generate_content (tr ++ backoff m prompt (retries - 1)) m prompt = Raise e ->
  _generate_with_retry self m prompt (Z.of_nat retries) tr
  = (Raise e, tr ++ backoff m prompt (retries - 1) ++ [EvGenerate m prompt]).
Proof.
  intros Hpos Hfail Hgen. unfold _generate_with_retry, range.
  rewrite Nat2Z.id.
  rewrite (retry_loop_backoff (retries - 1) 0 retries) by (done || lia).
  replace (retries - (retries - 1))%nat with 1%nat by lia. cbn [seq map].
  rewrite (retry_loop_raise _ _ _ _ _ _ e) by
    (done || (apply andb_false_iff; right; apply Z.ltb_ge; lia)).
  by rewrite <- app_assoc.
Qed.

(** An error that is no quota error, on the first attempt. *)
Lemma generate_with_retry_other self m prompt (retries : nat) tr e :
  (0 < retries)%nat ->
  generate_content tr m prompt = Raise e ->
  is_quota_error e = false ->
  _generate_with_retry self m prompt (Z.of_nat retries) tr
  = (Raise e, tr ++ [EvGenerate m prompt]).
Proof.
  intros Hpos Hgen Hq. unfold _generate_with_retry, range.
  rewrite Nat2Z.id. destruct retries as [|n]; [lia|]. cbn [seq map].
  apply retry_loop_raise; [done|]. by rewrite Hq.
Qed.

End RetryClaim.

(** ** C4: the retry helper shared by both generation operations *)

Example backoff_two_failures m prompt :
  backoff m prompt 2
  = [EvGenerate m prompt; EvSleep 5; EvGenerate m prompt; EvSleep 10].
Proof. reflexivity. Qed.

(** C4. [_generate_with_retry] with its default of 3 attempts, for either
    model, from any trace [tr]:
    - if the first [N - 1] attempts fail with an error whose message contains
      "429" or "Quota" and attempt [N <= 3] succeeds, that answer is returned
      after exactly [N - 1] sleeps, of 5, 10, ... seconds (attempt number
      times five), one after each failed attempt;
    - an error without those substrings on the first attempt is raised at
      once: one call, no sleep, no retry;
    - if the first two attempts fail with quota errors, whatever error the
      third attempt raises (a quota error too, say) is raised to the caller,
      after the sleeps of 5 and 10 seconds and no third sleep;
    - in every case the model is called at most 3 times;
    - [generate_text] and [analyze_query], once they hold an API key, talk to
      the outside exactly as this helper does on their model and prompt. *)
Theorem C4_retry_backoff `{Env} (self : GeminiHandler) (m : model)
    (prompt : string) (tr : trace) :
  (forall (N : nat) (res : response),
     (1 <= N <= 3)%nat ->
     (forall i, (i < N - 1)%nat ->
        exists e, generate_content (tr ++ backoff m prompt i) m prompt = Raise e
                  /\ is_quota_error e = true) ->
     generate_content (tr ++ backoff m prompt (N - 1)) m prompt = Ok res ->
     _generate_with_retry self m prompt 3 tr
     = (Ok (Some res), tr ++ backoff m prompt (N - 1) ++ [EvGenerate m prompt])
     /\ sleeps (backoff m prompt (N - 1) ++ [EvGenerate m prompt])
        = map (fun i => Z.of_nat i * 5) (seq 1 (N - 1))
     /\ length (sleeps (backoff m prompt (N - 1) ++ [EvGenerate m prompt]))
        = (N - 1)%nat)
  /\ (forall e,
        generate_content tr m prompt = Raise e ->
        is_quota_error e = false ->
        _generate_with_retry self m prompt 3 tr
        = (Raise e, tr ++ [EvGenerate m prompt]))
  /\ (forall e,
        (forall i, (i < 2)%nat ->
           exists e', generate_content (tr ++ backoff m prompt i) m prompt = Raise e'
                      /\ is_quota_error e' = true) ->
        generate_content (tr ++ backoff m prompt 2) m prompt = Raise e ->
        _generate_with_retry self m prompt 3 tr
        = (Raise e, tr ++ [EvGenerate m prompt; EvSleep 5;
                           EvGenerate m prompt; EvSleep 10;
                           EvGenerate m prompt]))
  /\ (exists tr', snd (_generate_with_retry self m prompt 3 tr) = tr ++ tr'
                  /\ (count is_generate tr' <= 3)%nat)
  /\ (api_key self <> EmptyString ->
      snd (generate_text self prompt tr)
      = snd (_generate_with_retry self text_model prompt 3 tr)
      /\ forall query context,
           snd (analyze_query self query context tr)
           = snd (_generate_with_retry self json_model
                    (analyze_prompt query context) 3 tr)).
Proof.
  split_and!.
  - intros N res HN Hfail Hgen. split_and!.
    + apply (generate_with_retry_success self m prompt 3 (N - 1)); [lia|done|done].
    + unfold backoff. by rewrite sleeps_app, sleeps_backoff_from, app_nil_r.
    + unfold backoff.
      by rewrite sleeps_app, sleeps_backoff_from, app_nil_r, length_map, length_seq.
  - intros e Hgen Hq.
    by apply (generate_with_retry_other self m prompt 3); [lia|..].
  - intros e Hfail Hgen.
    by rewrite (generate_with_retry_exhausted self m prompt 3 tr e); [|lia|..].
  - destruct (retry_loop_calls (range 3) 3 m prompt tr) as (tr' & Htr & Hn & _).
    exists tr'. by split.
  - intros Hkey. destruct self as [key]. cbn in Hkey.
    unfold generate_text, analyze_query. cbn [api_key truthy].
    destruct key as [|c key]; [done|]. cbn [negb].
    unfold mbind, M_bind, try_, res_text, lift, raise.
    split; [|intros query context].
    + destruct (_generate_with_retry _ text_model prompt 3 tr) as [[[r|]|e] tr1];
        cbn; [by destruct (text r)|done|done].
    + destruct (_generate_with_retry _ json_model _ 3 tr) as [[[r|]|e] tr1];
        cbn; [|done|done].
      destruct (text r) as [t|e]; [|done]. by destruct (json_loads t).
Qed.

(** C4 at work: one quota error, then the answer, with one sleep of 5s. *)
Lemma C4_retry_backoff_witness :
  @_generate_with_retry World.busy_once {| api_key := "key" |} text_model "hello" 3 []
  = (Ok (Some (Response (Ok "ready"))),
     [EvGenerate text_model "hello"; EvSleep 5; EvGenerate text_model "hello"]).
Proof.
  destruct (@C4_retry_backoff World.busy_once {| api_key := "key" |}
              text_model "hello" []) as (Hsuccess & _).
  destruct (Hsuccess 2%nat (Response (Ok "ready"))) as (Hrun & _).
  - lia.
  - intros i Hi. exists World.quota_exceeded.
    destruct i as [|i]; [split; reflexivity | lia].
  - reflexivity.
  - exact Hrun.
Defined.

(** ** Facts about strings *)

Section StrFacts.
Import Str.

Lemma append_nil (b : string) : EmptyString +:+ b = b.
Proof. reflexivity. Qed.

Lemma append_cons c (a b : string) : String c a +:+ b = String c (a +:+ b).
Proof. reflexivity. Qed.

Lemma startswith_app p r : startswith p (p +:+ r) = true.
Proof.
  induction p as [|a p IH]; [done|].
  rewrite append_cons. cbn [startswith]. by rewrite Ascii.eqb_refl.
Qed.

Lemma startswith_inv p : forall s,
  startswith p s = true -> s = p +:+ drop (String.length p) s.
Proof.
  induction p as [|a p IH]; intros s Hp; [done|].
  destruct s as [|b s]; [done|].
  cbn [startswith String.length drop] in Hp |- *. rewrite append_cons.
  destruct (Ascii.eqb_spec a b) as [->|]; [|done].
  f_equal. by apply IH.
Qed.

Lemma contains_here sub rest : contains sub (sub +:+ rest) = true.
Proof.
  destruct sub as [|a sub]; [by destruct rest|].
  rewrite append_cons. cbn [contains]. rewrite <- append_cons.
  by rewrite startswith_app.
Qed.

(** A text contains whatever is written into it. *)
Lemma contains_app before sub after :
  contains sub (before +:+ sub +:+ after) = true.
Proof.
  induction before as [|c before IH]; [rewrite append_nil; apply contains_here|].
  rewrite append_cons. cbn [contains]. rewrite IH. apply orb_true_r.
Qed.

Lemma append_empty (a : string) : a +:+ EmptyString = a.
Proof.
  induction a as [|c a IH]; [done|]. by rewrite append_cons, IH.
Qed.

Lemma contains_app_end before sub : contains sub (before +:+ sub) = true.
Proof.
  pose proof (contains_app before sub EmptyString) as Hc.
  by rewrite append_empty in Hc.
Qed.

(** [partition] finds an occurrence of the separator. *)
Lemma partition_Some sep : forall s a b,
  partition sep s = Some (a, b) -> s = a +:+ sep +:+ b.
Proof.
  intros s. induction s as [|c s IH]; intros a b; cbn [partition].
  - destruct (startswith sep EmptyString) eqn:Hp; [|done].
    intros [= <- <-]. by apply startswith_inv in Hp.
  - destruct (startswith sep (String c s)) eqn:Hp.
    + intros [= <- <-]. by apply startswith_inv in Hp.
    + destruct (partition sep s) as [[a' b']|]; [|done].
      intros [= <- <-]. rewrite append_cons. f_equal. by apply IH.
Qed.

(** ... and it is the first one: no occurrence starts earlier. *)
Lemma partition_first sep : forall s a b a' b',
  partition sep s = Some (a, b) ->
  s = a' +:+ sep +:+ b' ->
  (String.length a <= String.length a')%nat.
Proof.
  intros s. induction s as [|c s IH]; intros a b a' b'; cbn [partition].
  - destruct (startswith sep EmptyString); [|done].
    intros [= <- <-] _. cbn. lia.
  - destruct (startswith sep (String c s)) eqn:Hp.
    + intros [= <- <-] _. cbn. lia.
    + destruct (partition sep s) as [[a0 b0]|] eqn:Hpart; [|done].
      intros [= <- <-] Hs. destruct a' as [|c' a'].
      * rewrite append_nil in Hs. rewrite Hs, startswith_app in Hp. done.
      * rewrite append_cons in Hs. injection Hs as -> Hs. cbn [String.length].
        specialize (IH a0 b0 a' b' eq_refl Hs). lia.
Qed.

Lemma partition_None sep : forall s,
  partition sep s = None <-> contains sep s = false.
Proof.
  intros s. induction s as [|c s IH]; cbn [partition contains].
  - destruct (startswith sep EmptyString); by split.
  - destruct (startswith sep (String c s)); [by split|]. cbn [orb].
    rewrite <- IH. destruct (partition sep s) as [[??]|]; by split.
Qed.

Lemma contains_partition sep s :
  contains sep s = true -> exists a b, partition sep s = Some (a, b).
Proof.
  intros Hc. destruct (partition sep s) as [[a b]|] eqn:Hp; [by eauto|].
  apply partition_None in Hp. congruence.
Qed.

Lemma length_append (a b : string) :
  String.length (a +:+ b) = (String.length a + String.length b)%nat.
Proof.
  induction a as [|c a IH]; [done|].
  rewrite append_cons. cbn [String.length]. by rewrite IH.
Qed.

Lemma hex_digit_kept n : (n < 16)%N -> quote_keeps (byte_of (hex_digit n)) = true.
Proof.
  intros Hn.
  assert (Hcases : In n (map N.of_nat (seq 0 16))).
  { apply in_map_iff. exists (N.to_nat n). split; [lia|]. apply in_seq. lia. }
  cbn in Hcases. repeat (destruct Hcases as [<-|Hcases]; [by vm_compute|]). done.
Qed.

(** What [quote] writes is made of letters, digits, [_.-~/] and [%]. *)
Lemma quote_is_escaped s :
  forallb (fun c => quote_keeps (byte_of c) || Ascii.eqb c "%")
          (list_ascii_of_string (quote s)) = true.
Proof.
  induction s as [|c s IH]; [done|]. cbn [quote].
  destruct (quote_keeps (byte_of c)) eqn:Hk.
  - cbn [list_ascii_of_string forallb]. by rewrite Hk, IH.
  - cbn [list_ascii_of_string forallb]. rewrite !hex_digit_kept, IH; [done|..].
    + apply N.mod_lt. lia.
    + unfold byte_of. pose proof (N_ascii_bounded c).
      apply N.Div0.div_lt_upper_bound. lia.
Qed.

End StrFacts.

(** ** Facts about the retrieval module *)

Section RetrievalFacts.
Context `{Env}.

Lemma append_videos_length results : forall videos,
  (length (fst (append_videos results videos)) <= length videos + length results)%nat.
Proof.
  induction results as [|r results IH]; intros videos; cbn [append_videos].
  - cbn. lia.
  - destruct (video_entry r) as [v|e]; [|cbn; lia].
    specialize (IH (videos ++ [v])). rewrite length_app in IH. cbn in IH |- *. lia.
Qed.

Lemma search_youtube_run query max_results tr :
  search_youtube query max_results tr
  = (Ok (found_videos (YoutubeSearch tr query max_results)),
     tr ++ [EvYoutubeSearch query max_results]).
Proof.
  unfold search_youtube, mbind, M_bind, try_, call.
  by destruct (YoutubeSearch tr query max_results).
Qed.

Lemma found_videos_length r n :
  (forall results, r = Ok results -> (length results <= n)%nat) ->
  (length (found_videos r) <= n)%nat.
Proof.
  destruct r as [results|e]; intros Hr; [|cbn; lia].
  pose proof (append_videos_length results []) as Hlen.
  specialize (Hr results eq_refl). cbn in Hlen |- *. lia.
Qed.

Lemma link_entry_english r a : link_entry r = Ok (Some a) -> english_title a.
Proof.
  unfold link_entry, mbind, outcome_bind, mret, outcome_ret.
  destruct (getitem r "title") as [title|]; [|done].
  destruct (is_english title) as [[|]|] eqn:Heng; [|done|done].
  destruct (getitem r "href") as [href|]; [|done].
  intros [= <-]. exists title. split; [|done]. by rewrite lookup_insert_eq.
Qed.

(** A result with a str for title and a link is kept when its title is pure
    ASCII and dropped when it is not. *)
Lemma link_entry_hit (d : dict) (t : string) (h : value) :
  d !! "title" = Some (VStr t) ->
  d !! "href" = Some h ->
  link_entry (VDict d)
  = Ok (if Str.is_ascii t
        then Some ({[ "title" := VStr t; "link" := h ]} : dict)
        else None).
Proof.
  intros Ht Hh. unfold link_entry, mbind, outcome_bind, getitem.
  rewrite Ht. cbn [is_english]. destruct (Str.is_ascii t); [|done].
  by rewrite Hh.
Qed.

Example is_english_examples :
  is_english (VStr "Hello World") = Ok true
  /\ is_english (VStr "你好世界") = Ok false
  /\ is_english (VStr "Café") = Ok false.
Proof. by vm_compute. Qed.

Lemma append_links_english results : forall links,
  Forall english_title links ->
  Forall english_title (fst (append_links results links)).
Proof.
  induction results as [|r results IH]; intros links Hlinks; [done|].
  cbn [append_links]. destruct (link_entry r) as [[a|]|e] eqn:Hr; [|by apply IH|done].
  apply IH. apply Forall_app. split; [done|].
  apply Forall_cons. split; [|done]. by apply link_entry_english with r.
Qed.

Lemma survivors_english r : Forall english_title (survivors r).
Proof. destruct r; [by apply append_links_english|done]. Qed.

Lemma general_fallback_run query links tr :
  general_fallback query links tr =
  match links with
  | [] => (Ok (survivors (DDGS_text tr query "us-en" 5)), tr ++ [EvDDGS query "us-en" 5])
  | _ => (Ok links, tr)
  end.
Proof.
  destruct links; [|done]. unfold general_fallback, mbind, M_bind, try_, call.
  by destruct (DDGS_text tr query "us-en" 5).
Qed.

Lemma trusted_domains_allowlisted category domains :
  trusted_domains category = Ok domains ->
  exists key, TRUSTED_SITES !! key = Some domains.
Proof.
  destruct category as [| | | |c| |]; try done. cbn [trusted_domains].
  intros [= <-]. destruct (TRUSTED_SITES !! lower c) as [found|] eqn:Hfound.
  - by exists (lower c).
  - by exists "general".
Qed.

End RetrievalFacts.

(** ** C9: the video search *)

Section RetrievalClaims.
Context `{Env}.

(** C9. [search_youtube], for every query and [max_results] and from any
    trace: it makes one request to the video provider and returns a list,
    never an exception; if the provider fails the list is empty; otherwise it
    has at most as many entries as the provider returned (an entry that
    cannot be read ends the loop with the entries made so far), hence at most
    [max_results] entries when the provider returned no more than the
    [max_results >= 0] it was asked for. [cached_video_search] is this search
    for 2 results, run now or replayed from an earlier call. *)
Theorem C9_search_youtube (query : value) (max_results : Z) (tr : trace) :
  exists videos,
    search_youtube query max_results tr
    = (Ok videos, tr ++ [EvYoutubeSearch query max_results])
    /\ (forall e, YoutubeSearch tr query max_results = Raise e -> videos = [])
    /\ (forall results,
          YoutubeSearch tr query max_results = Ok results ->
          (length videos <= length results)%nat)
    /\ (0 <= max_results ->
        (forall results,
           YoutubeSearch tr query max_results = Ok results ->
           Z.of_nat (length results) <= max_results) ->
        Z.of_nat (length videos) <= max_results)
    /\ (video_cache tr query = None ->
        cached_video_search query tr = search_youtube query 2 tr)
    /\ (forall earlier,
          video_cache tr query = Some earlier ->
          cached_video_search query tr = (fst (search_youtube query 2 earlier), tr)).
Proof.
  assert (Hcache :
    (video_cache tr query = None ->
     cached_video_search query tr = search_youtube query 2 tr)
    /\ (forall earlier,
          video_cache tr query = Some earlier ->
          cached_video_search query tr = (fst (search_youtube query 2 earlier), tr))).
  { unfold cached_video_search, st_cache_data. split; [by intros ->|].
    intros earlier ->. by rewrite search_youtube_run. }
  destruct Hcache as [Hmiss Hhit].
  unfold search_youtube, mbind, M_bind, try_, call.
  destruct (YoutubeSearch tr query max_results) as [results|e] eqn:Hyt.
  - exists (fst (append_videos results [])).
    pose proof (append_videos_length results []) as Hlen. cbn [length] in Hlen.
    split_and!; [done|done| | |done|done].
    + by intros ? [= <-].
    + intros _ Hbound. specialize (Hbound results eq_refl). lia.
  - exists []. split_and!; [done|done|done| |done|done].
    intros Hpos _. cbn. lia.
Qed.
End RetrievalClaims.

Lemma C9_search_youtube_witness :
  exists videos,
    @search_youtube World.two_videos (VStr "sorting") 2 []
    = (Ok videos, [EvYoutubeSearch (VStr "sorting") 2])
    /\ Z.of_nat (length videos) <= 2.
Proof.
  destruct (@C9_search_youtube World.two_videos (VStr "sorting") 2 [])
    as (videos & Hrun & _ & _ & Hbound & _).
  exists videos. split; [exact Hrun|].
  apply Hbound; [lia|]. intros results [= <-]. cbn. lia.
Defined.

(** ** C5: the web search *)

Section WebClaims.
Context `{Env}.

(** What [search_web] does, by what the trusted search finds. *)
Lemma search_web_run (query category : value) (domains : list string) (tr : trace) :
  trusted_domains category = Ok domains ->
  let request_a := EvDDGS (VStr (smart_query query domains)) "us-en" 4 in
  let found_a :=
    survivors (DDGS_text tr (VStr (smart_query query domains)) "us-en" 4) in
  search_web query category tr =
  match found_a with
  | [] => (Ok (survivors (DDGS_text (tr ++ [request_a]) query "us-en" 5)),
           tr ++ [request_a; EvDDGS query "us-en" 5])
  | _ => (Ok found_a, tr ++ [request_a])
  end.
Proof.
  intros Hdom. cbn zeta.
  unfold search_web, mbind, M_bind, lift, try_, call. rewrite Hdom.
  unfold survivors.
  destruct (DDGS_text tr (VStr (smart_query query domains)) "us-en" 4)
    as [results|e].
  - destruct (append_links results []) as [links [e|]] eqn:Hloop; cbn [fst].
    + rewrite general_fallback_run. destruct links; [|done].
      unfold survivors. by rewrite <- app_assoc.
    + destruct links; [|done]. rewrite general_fallback_run.
      unfold survivors. by rewrite <- app_assoc.
  - rewrite general_fallback_run. unfold survivors. by rewrite <- app_assoc.
Qed.

(** C5. [search_web], for every query and every str category, from any
    trace. The trusted phase asks the provider once, for region [us-en] and
    up to 4 results, with the query followed by a site filter made of the
    first 4 (at most) domains of one list of [TRUSTED_SITES]. If one of its
    results survives the title filter, the survivors are returned and no
    second request is made. If none does (the request failing counts as
    none), the general phase asks once more, for the bare query, region
    [us-en] and up to 5 results, and its survivors are returned. A failing
    provider never makes [search_web] raise, and every entry returned has a
    title that [is_english] accepts. *)
Theorem C5_search_web (query : value) (category : string) (tr : trace) :
  exists domains links,
    trusted_domains (VStr category) = Ok domains
    /\ (exists key, TRUSTED_SITES !! key = Some domains)
    /\ (length (take 4 domains) <= 4)%nat
    /\ smart_query query domains
       = py_str query +:+ " ("
         +:+ Str.join " OR " (map (fun d => "site:" +:+ d) (take 4 domains)) +:+ ")"
    /\ let request_a := EvDDGS (VStr (smart_query query domains)) "us-en" 4 in
       let request_b := EvDDGS query "us-en" 5 in
       let found_a :=
         survivors (DDGS_text tr (VStr (smart_query query domains)) "us-en" 4) in
       let found_b :=
         survivors (DDGS_text (tr ++ [request_a]) query "us-en" 5) in
       (found_a <> [] ->
        search_web query (VStr category) tr = (Ok found_a, tr ++ [request_a]))
       /\ (found_a = [] ->
           search_web query (VStr category) tr
           = (Ok found_b, tr ++ [request_a; request_b]))
       /\ fst (search_web query (VStr category) tr) = Ok links
       /\ Forall english_title links.
Proof.
  destruct (trusted_domains (VStr category)) as [domains|e] eqn:Hdom; [|done].
  pose proof (search_web_run query (VStr category) domains tr Hdom) as Hrun.
  pose proof (survivors_english
                (DDGS_text tr (VStr (smart_query query domains)) "us-en" 4)) as Ha.
  cbn zeta in Hrun. exists domains.
  destruct (survivors (DDGS_text tr (VStr (smart_query query domains)) "us-en" 4))
    as [|a found] eqn:Hfound.
  - eexists. split; [done|]. split; [by eapply trusted_domains_allowlisted|].
    split; [rewrite length_take; lia|]. split; [done|].
    cbn zeta. rewrite Hrun. split_and!; [done|done|done|].
    apply survivors_english.
  - exists (a :: found). split; [done|]. split; [by eapply trusted_domains_allowlisted|].
    split; [rewrite length_take; lia|]. split; [done|].
    cbn zeta. rewrite Hrun. by split_and!.
Qed.

End WebClaims.

Lemma C5_search_web_witness :
  @search_web World.mixed_web (VStr "graph theory") (VStr "Math") []
  = (Ok [ ({[ "title" := VStr "Graph theory";
              "link" := VStr "https://www.britannica.com/topic/graph-theory" ]} : dict) ],
     [EvDDGS (VStr "graph theory (site:khanacademy.org OR site:wolfram.com OR site:brilliant.org OR site:libretexts.org)")
             "us-en" 4]).
Proof.
  destruct (@C5_search_web World.mixed_web (VStr "graph theory") "Math" [])
    as (domains & links & Hdom & _ & _ & _ & Hhit & _).
  injection Hdom as <-. cbn zeta in Hhit. apply Hhit. by vm_compute.
Defined.

(** ** C10: the allowlist lookup *)

Section AllowlistClaims.
Context `{Env}.

Lemma TRUSTED_SITES_other key :
  key ∉ ["cs"; "math"; "physics"; "general"] -> TRUSTED_SITES !! key = None.
Proof.
  intros Hkey. unfold TRUSTED_SITES.
  rewrite !lookup_insert_ne, lookup_singleton_ne; [done|..];
    intros <-; apply Hkey; set_solver.
Qed.

(** C10. The allowlist is looked up at the lowercased category, and any key
    other than "cs", "math", "physics" and "general" gets the general list.
    In particular "science" does: from any trace, the first request of
    [search_web query "science"] carries the site filter of britannica.com,
    bbc.com, nytimes.com and investopedia.com. *)
Theorem C10_science_uses_general (category : string) :
  trusted_domains (VStr category)
  = Ok (default general_sites (TRUSTED_SITES !! lower category))
  /\ (lower category ∉ ["cs"; "math"; "physics"; "general"] ->
      trusted_domains (VStr category) = Ok general_sites)
  /\ trusted_domains (VStr "science") = Ok general_sites
  /\ forall (query : value) (tr : trace),
       exists result tr',
         search_web query (VStr "science") tr
         = (result,
            tr ++ EvDDGS (VStr (py_str query +:+
                    " (site:britannica.com OR site:bbc.com OR site:nytimes.com OR site:investopedia.com)"))
                    "us-en" 4 :: tr').
Proof.
  assert (Hscience : trusted_domains (VStr "science") = Ok general_sites) by done.
  split_and!; [done| |done|].
  - intros Hkey. cbn [trusted_domains]. by rewrite TRUSTED_SITES_other.
  - intros query tr.
    rewrite (search_web_run query (VStr "science") general_sites tr Hscience).
    destruct (survivors _) as [|a found].
    + by eexists _, [_].
    + by eexists _, [].
Qed.

End AllowlistClaims.

Lemma C10_science_uses_general_witness :
  @trusted_domains World.busy_once (VStr "History") = Ok general_sites.
Proof.
  apply (proj1 (proj2 (@C10_science_uses_general World.busy_once "History"))).
  change (@lower World.busy_once "History") with "history".
  rewrite !not_elem_of_cons. split_and!; try done. apply not_elem_of_nil.
Defined.

(** ** C6: the fail-safe links *)

Section EnsureLinksClaim.
Context `{Env}.

(** C6. [ensure_links], for every topic str and every list of articles. On
    the empty list it returns exactly two entries, whose links are the Khan
    Academy search URL and the Google Scholar search URL followed by
    [quote topic]; both links thus contain the URL-escaped topic, which is
    made of unreserved characters, [/] and percent escapes only. On a list
    that is not empty it returns the list as it is. *)
Theorem C6_ensure_links (topic : string) (articles : list dict) :
  (articles = [] ->
   exists khan scholar,
     ensure_links (VStr topic) articles = Ok [khan; scholar]
     /\ khan !! "link"
        = Some (VStr ("https://www.khanacademy.org/search?page_search_query="
                      +:+ Str.quote topic))
     /\ scholar !! "link"
        = Some (VStr ("https://scholar.google.com/scholar?q=" +:+ Str.quote topic))
     /\ Forall (link_contains (Str.quote topic)) [khan; scholar]
     /\ forallb (fun c => Str.quote_keeps (Str.byte_of c) || Ascii.eqb c "%")
          (list_ascii_of_string (Str.quote topic)) = true)
  /\ (articles <> [] -> ensure_links (VStr topic) articles = Ok articles).
Proof.
  split.
  - intros ->. eexists _, _. split; [reflexivity|].
    assert (Hk : forall (t l : value), ({[ "title" := t; "link" := l ]} : dict) !! "link" = Some l).
    { intros t l. rewrite lookup_insert_ne by done. apply lookup_singleton_eq. }
    split; [apply Hk|]. split; [apply Hk|]. split; [|apply quote_is_escaped].
    apply Forall_cons. split; [|apply Forall_cons; split; [|done]].
    + eexists. split; [apply Hk|]. apply contains_app_end.
    + eexists. split; [apply Hk|]. apply contains_app_end.
  - by destruct articles.
Qed.

End EnsureLinksClaim.

Lemma C6_ensure_links_witness :
  @ensure_links World.busy_once (VStr "C++ & pointers") []
  = Ok [ ({[ "title" := VStr "📖 Learn 'C++ & pointers' on Khan Academy";
             "link" := VStr "https://www.khanacademy.org/search?page_search_query=C%2B%2B%20%26%20pointers" ]} : dict);
         ({[ "title" := VStr "🎓 Academic Papers: C++ & pointers";
             "link" := VStr "https://scholar.google.com/scholar?q=C%2B%2B%20%26%20pointers" ]} : dict) ]
  /\ @ensure_links World.busy_once (VStr "C++ & pointers")
       [ ({[ "title" := VStr "Pointers"; "link" := VStr "https://www.w3schools.com/c/c_pointers.php" ]} : dict) ]
     = Ok [ ({[ "title" := VStr "Pointers"; "link" := VStr "https://www.w3schools.com/c/c_pointers.php" ]} : dict) ].
Proof.
  split.
  - destruct (proj1 (@C6_ensure_links World.busy_once "C++ & pointers" []) eq_refl)
      as (khan & scholar & Hrun & _).
    reflexivity.
  - apply (proj2 (@C6_ensure_links World.busy_once "C++ & pointers" _)). done.
Defined.

(** ** More facts about strings *)

Section MoreStrFacts.
Import Str.

(** [s[:n]] is the beginning of [s] ... *)
Lemma slice_to_prefix s : forall n, exists rest, s = slice_to n s +:+ rest.
Proof.
  induction s as [|c s IH]; intros n; [by exists EmptyString|].
  cbn [slice_to]. destruct (is_continuation c).
  - destruct (IH n) as [rest Hrest]. exists rest.
    rewrite append_cons. by f_equal.
  - destruct (n =? 0)%N; [by exists (String c s)|].
    destruct (IH (n - 1)%N) as [rest Hrest]. exists rest.
    rewrite append_cons. by f_equal.
Qed.

(** ... holding [n] characters, or all of them if [s] has fewer. *)
Lemma slice_to_chars s : forall n, chars (slice_to n s) = N.min n (chars s).
Proof.
  induction s as [|c s IH]; intros n; cbn [slice_to chars]; [lia|].
  destruct (is_continuation c) eqn:Hc.
  - cbn [chars]. by rewrite Hc, IH.
  - destruct (N.eqb_spec n 0) as [->|Hn]; [cbn; lia|].
    cbn [chars]. rewrite Hc, IH. lia.
Qed.

Lemma slice_to_all s : forall n, (chars s <= n)%N -> slice_to n s = s.
Proof.
  induction s as [|c s IH]; intros n; cbn [slice_to chars]; [done|].
  destruct (is_continuation c).
  - intros Hn. by rewrite IH.
  - intros Hn. destruct (N.eqb_spec n 0) as [->|Hn0]; [lia|].
    rewrite IH; [done|lia].
Qed.

Lemma partition_shorter sep s a b :
  partition sep s = Some (a, b) ->
  String.length s = (String.length a + String.length sep + String.length b)%nat.
Proof.
  intros Hp. apply partition_Some in Hp. rewrite Hp, !length_append. lia.
Qed.

(** Fuel beyond the length of the text changes nothing. *)
Lemma split_fuel_enough sep n : forall s,
  sep <> EmptyString ->
  (String.length s <= n)%nat ->
  split_fuel n sep s = split_fuel (String.length s) sep s.
Proof.
  induction (lt_wf n) as [n _ IH]. intros s Hsep Hlen.
  destruct n as [|n].
  - by replace (String.length s) with 0%nat by lia.
  - destruct (String.length s) as [|m] eqn:Hs.
    + cbn [split_fuel]. destruct (partition sep s) as [[a b]|] eqn:Hp; [|done].
      apply partition_shorter in Hp. destruct sep; [done|]. cbn in Hp. lia.
    + cbn [split_fuel]. destruct (partition sep s) as [[a b]|] eqn:Hp; [|done].
      f_equal. apply partition_shorter in Hp.
      assert (String.length b <= m)%nat.
      { destruct sep; [done|]. cbn in Hp. lia. }
      rewrite (IH n) by (done || lia). symmetry. apply IH; [lia|done|done].
Qed.

(** [split] cuts at the first separator and goes on in the rest. *)
Lemma split_unfold sep s :
  sep <> EmptyString ->
  split sep s = match partition sep s with
                | None => [s]
                | Some (a, b) => a :: split sep b
                end.
Proof.
  intros Hsep. unfold split. destruct (String.length s) as [|m] eqn:Hs.
  - cbn [split_fuel]. destruct (partition sep s) as [[a b]|] eqn:Hp; [|done].
    apply partition_shorter in Hp. destruct sep; [done|]. cbn in Hp. lia.
  - cbn [split_fuel]. destruct (partition sep s) as [[a b]|] eqn:Hp; [|done].
    f_equal. apply split_fuel_enough; [done|].
    apply partition_shorter in Hp. destruct sep; [done|]. cbn in Hp. lia.
Qed.

End MoreStrFacts.

(** ** Facts about the service layer *)

Section ServiceFacts.
Context `{Env}.

(** [generate_text] never raises, and searches nothing. *)
Lemma generate_text_total self prompt tr :
  exists t tr', generate_text self prompt tr = (Ok t, tr ++ tr')
                /\ count is_search tr' = 0%nat.
Proof.
  unfold generate_text. destruct self as [[|c key]]; cbn [api_key truthy negb].
  { exists "API Key missing.", []. by rewrite app_nil_r. }
  unfold _generate_with_retry, mbind, M_bind, try_, res_text, lift, raise.
  destruct (retry_loop_calls (range 3) 3 text_model prompt tr) as (tr' & Htr & _ & Hs).
  destruct (retry_loop (range 3) 3 text_model prompt tr) as [[[r|]|e] tr1];
    cbn [snd] in Htr; subst tr1.
  - destruct (text r) as [t|e]; eexists _, tr'; by split.
  - eexists _, tr'; by split.
  - eexists _, tr'; by split.
Qed.

(** [analyze_query] never raises, and searches nothing. *)
Lemma analyze_query_total self query context tr :
  exists data tr', analyze_query self query context tr = (Ok data, tr ++ tr')
                   /\ count is_search tr' = 0%nat.
Proof.
  unfold analyze_query. destruct self as [[|c key]]; cbn [api_key truthy negb].
  { exists VNone, []. by rewrite app_nil_r. }
  unfold _generate_with_retry, mbind, M_bind, try_, res_text, lift, raise.
  destruct (retry_loop_calls (range 3) 3 json_model (analyze_prompt query context) tr)
    as (tr' & Htr & _ & Hs).
  destruct (retry_loop (range 3) 3 json_model (analyze_prompt query context) tr)
    as [[[r|]|e] tr1]; cbn [snd] in Htr; subst tr1.
  - destruct (text r) as [t|e]; [|eexists _, tr'; by split].
    destruct (json_loads t); eexists _, tr'; by split.
  - eexists _, tr'; by split.
  - eexists _, tr'; by split.
Qed.

(** With a str for topic, [ensure_links] returns, and returns something. *)
Lemma ensure_links_str topic raw :
  exists articles, ensure_links (VStr topic) raw = Ok articles
                   /\ articles <> []
                   /\ (raw <> [] -> articles = raw)
                   /\ (raw = [] -> Forall (link_contains (Str.quote topic)) articles
                                   /\ length articles = 2%nat).
Proof.
  destruct raw as [|a raw].
  - eexists. split; [reflexivity|]. split; [done|]. split; [done|]. intros _.
    assert (Hk : forall (t l : value),
               ({[ "title" := t; "link" := l ]} : dict) !! "link" = Some l).
    { intros t l. rewrite lookup_insert_ne by done. apply lookup_singleton_eq. }
    split; [|done]. repeat (apply Forall_cons; split); [..|done];
      (eexists; split; [apply Hk|apply contains_app_end]).
  - exists (a :: raw). by split_and!.
Qed.

(** A dict with an entry is truthy. *)
Lemma truthy_dict (d : dict) key v : d !! key = Some v -> truthy (VDict d) = true.
Proof.
  intros Hd. cbn [truthy]. destruct (map_to_list d) as [|kv l] eqn:Hl; [|done].
  apply map_to_list_empty_iff in Hl. subst d. by rewrite lookup_empty in Hd.
Qed.

(** The web search with a str for category returns, after a first request
    to the trusted sites of that category. *)
Lemma search_web_total query (category : string) tr :
  exists raw rest,
    search_web query (VStr category) tr
    = (Ok raw,
       tr ++ EvDDGS (VStr (smart_query query
                       (default general_sites (TRUSTED_SITES !! lower category))))
                    "us-en" 4 :: rest).
Proof.
  rewrite (search_web_run query (VStr category) _ tr eq_refl).
  destruct (survivors _) as [|a found].
  - by eexists _, [_].
  - by eexists _, [].
Qed.

(** The cached video search returns the videos of a search made now, on a
    miss, or earlier, on a hit. *)
Lemma cached_video_search_run query tr :
  exists made_at tr2,
    cached_video_search query tr
    = (Ok (found_videos (YoutubeSearch made_at query 2)), tr2)
    /\ (video_cache tr query = None -> tr2 = tr ++ [EvYoutubeSearch query 2])
    /\ (video_cache tr query <> None -> tr2 = tr).
Proof.
  unfold cached_video_search, st_cache_data.
  destruct (video_cache tr query) as [earlier|].
  - rewrite search_youtube_run. by eexists earlier, tr.
  - rewrite search_youtube_run. by eexists tr, _.
Qed.

(** The cached web search with a str for category returns; on a miss, after
    a first request to the trusted sites of that category. *)
Lemma cached_web_search_total query (category : string) tr :
  exists raw tr3,
    cached_web_search query (VStr category) tr = (Ok raw, tr3)
    /\ (web_cache tr query (VStr category) = None ->
        exists rest,
          tr3 = tr ++ EvDDGS (VStr (smart_query query
                                (default general_sites (TRUSTED_SITES !! lower category))))
                             "us-en" 4 :: rest)
    /\ (web_cache tr query (VStr category) <> None -> tr3 = tr).
Proof.
  unfold cached_web_search, st_cache_data.
  destruct (web_cache tr query (VStr category)) as [earlier|].
  - destruct (search_web_total query category earlier) as (raw & rest & ->).
    by exists raw, tr.
  - destruct (search_web_total query category tr) as (raw & rest & ->).
    exists raw. eexists. split; [done|]. split; [|done]. by exists rest.
Qed.

Lemma summary_and_topic_run full :
  summary_and_topic full
  = Ok (match Str.partition marker (Str.replace "**SEARCH_QUERY:**" marker full) with
        | None => (full, "Computer Science Core")
        | Some (before, after) =>
            (Str.strip before, Str.strip (until_marker marker after))
        end).
Proof.
  unfold summary_and_topic. fold marker.
  set (clean := Str.replace "**SEARCH_QUERY:**" marker full).
  destruct (Str.contains marker clean) eqn:Hc.
  - destruct (contains_partition _ _ Hc) as (before & after & Hp). rewrite Hp.
    rewrite (split_unfold marker clean), Hp by done.
    rewrite (split_unfold marker after) by done. unfold until_marker.
    by destruct (Str.partition marker after) as [[segment rest]|].
  - apply partition_None in Hc. by rewrite Hc.
Qed.

End ServiceFacts.

(** ** The routes of [handle_request] *)

Section RouteClaims.
Context `{Env}.

(** C8. When the query is the quiz sentinel, for every context, API key and
    trace: [handle_request] returns a result of category "Quiz" without
    videos and without articles, whose explanation is what [generate_text]
    returns for the prompt "Create a 3-question quiz based on:", a newline and
    the first 5,000 characters of the context; what is added to the trace
    holds no call to a search provider. *)
Theorem C8_quiz_route (context api_key : string) (tr : trace) :
  exists text tr',
    generate_text (get_llm_handler api_key)
      ("Create a 3-question quiz based on:" +:+ Str.nl +:+ Str.slice_to 5000 context) tr
    = (Ok text, tr ++ tr')
    /\ handle_request CMD_QUIZ context api_key tr
       = (Ok {| explanation := VStr text;
                category := VStr "Quiz";
                book := VNone;
                videos := [];
                articles := [] |},
          tr ++ tr')
    /\ count is_search tr' = 0%nat
    /\ (exists rest, context = Str.slice_to 5000 context +:+ rest)
    /\ chars (Str.slice_to 5000 context) = N.min 5000 (chars context).
Proof.
  destruct (generate_text_total (get_llm_handler api_key) (quiz_prompt context) tr)
    as (text & tr' & Hgen & Hsearch).
  exists text, tr'. split; [exact Hgen|]. split; [|split; [done|]].
  - unfold handle_request. cbn [String.eqb]. change (String.eqb CMD_QUIZ CMD_SUMMARIZE) with false.
    change (String.eqb CMD_QUIZ CMD_QUIZ) with true. cbn match.
    unfold mbind, M_bind at 1. by rewrite Hgen.
  - split; [apply slice_to_prefix|apply slice_to_chars].
Qed.

(** C7. For a query that is neither sentinel, when [analyze_query] returns
    an object whose "category" is "chat": [handle_request] returns at once a
    result of category "chat" without videos and without articles, whose
    explanation is the object's "explanation", or "Hello!" if the object has
    none; the trace is the one [analyze_query] left, and what was added to it
    holds no call to a search provider. *)
Theorem C7_chat_route (query context api_key : string) (tr tr1 : trace) (d : dict) :
  query <> CMD_SUMMARIZE ->
  query <> CMD_QUIZ ->
  analyze_query (get_llm_handler api_key) query context tr = (Ok (VDict d), tr1) ->
  d !! "category" = Some (VStr "chat") ->
  handle_request query context api_key tr
  = (Ok {| explanation := default (VStr "Hello!") (d !! "explanation");
           category := VStr "chat";
           book := VNone;
           videos := [];
           articles := [] |},
     tr1)
  /\ exists tr', tr1 = tr ++ tr' /\ count is_search tr' = 0%nat.
Proof.
  intros Hsum Hquiz Hdata Hcat. split.
  - unfold handle_request.
    apply String.eqb_neq in Hsum, Hquiz. rewrite Hsum, Hquiz.
    unfold mbind, M_bind at 1. rewrite Hdata.
    rewrite (truthy_dict d "category" _ Hcat). cbn [negb].
    unfold mbind, M_bind, lift, py_get. by rewrite Hcat.
  - destruct (analyze_query_total (get_llm_handler api_key) query context tr)
      as (data & tr' & Hrun & Hsearch).
    rewrite Hrun in Hdata. injection Hdata as _ <-. by exists tr'.
Qed.

(** C3. For a query that is neither sentinel, when [analyze_query] returns
    [None]: the explanation is what [generate_text] returns for "Context: ",
    the first 10,000 characters of the context, two newlines, "User Request: "
    and the query; the cached video search is called on the query itself,
    the cached web search on the query itself with category "general" (unless
    the cache replays an earlier call, the provider is asked: for 2 videos on
    the query, and for the query under the general site filter); the result
    has category "general", and its articles, which are [ensure_links] of the
    web results, are not empty, whatever the web search returned. *)
Theorem C3_fallback_route (query context api_key : string) (tr tr1 : trace) :
  query <> CMD_SUMMARIZE ->
  query <> CMD_QUIZ ->
  analyze_query (get_llm_handler api_key) query context tr = (Ok VNone, tr1) ->
  exists text tr2 videos tr3 raw tr4 articles,
    generate_text (get_llm_handler api_key)
      ("Context: " +:+ Str.slice_to 10000 context +:+ Str.nl +:+ Str.nl
       +:+ "User Request: " +:+ query) tr1
    = (Ok text, tr2)
    /\ cached_video_search (VStr query) tr2 = (Ok videos, tr3)
    /\ (video_cache tr2 (VStr query) = None ->
        tr3 = tr2 ++ [EvYoutubeSearch (VStr query) 2])
    /\ cached_web_search (VStr query) (VStr "general") tr3 = (Ok raw, tr4)
    /\ (web_cache tr3 (VStr query) (VStr "general") = None ->
        exists rest,
          tr4 = tr3 ++ EvDDGS (VStr (smart_query (VStr query) general_sites))
                              "us-en" 4 :: rest)
    /\ ensure_links (VStr query) raw = Ok articles
    /\ articles <> []
    /\ (raw = [] -> Forall (link_contains (Str.quote query)) articles)
    /\ handle_request query context api_key tr
       = (Ok {| explanation := VStr text;
                category := VStr "general";
                book := VNone;
                videos := videos;
                articles := articles |},
          tr4).
Proof.
  intros Hsum Hquiz Hdata.
  destruct (generate_text_total (get_llm_handler api_key)
              (fallback_prompt query context) tr1) as (text & tr2' & Hgen & _).
  destruct (cached_video_search_run (VStr query) (tr1 ++ tr2'))
    as (made_at & tr3 & Hyt & Hyt_miss & _).
  destruct (cached_web_search_total (VStr query) "general" tr3)
    as (raw & tr4 & Hweb & Hweb_miss & _).
  change (default general_sites (TRUSTED_SITES !! lower "general"))
    with general_sites in Hweb_miss.
  destruct (ensure_links_str query raw) as (articles & Hlinks & Hne & _ & Hsafe).
  eexists text, (tr1 ++ tr2'), _, tr3, raw, tr4, articles.
  split; [exact Hgen|]. split; [exact Hyt|]. split; [exact Hyt_miss|].
  split; [exact Hweb|]. split; [exact Hweb_miss|].
  split; [exact Hlinks|]. split; [exact Hne|]. split; [by intros ?; apply Hsafe|].
  unfold handle_request.
  apply String.eqb_neq in Hsum, Hquiz. rewrite Hsum, Hquiz.
  unfold mbind, M_bind at 1. rewrite Hdata. cbn [truthy negb].
  unfold mbind, M_bind at 1. rewrite Hgen.
  unfold mbind, M_bind at 1. rewrite Hyt.
  unfold mbind, M_bind at 1. rewrite Hweb.
  unfold mbind, M_bind, lift. by rewrite Hlinks.
Qed.

End RouteClaims.

Section SummarizeClaim.
Context `{Env}.

Lemma until_marker_all sep s : Str.contains sep s = false -> until_marker sep s = s.
Proof. intros Hc. apply partition_None in Hc. unfold until_marker. by rewrite Hc. Qed.

(** C2. When the query is the summarize sentinel, for every context, API
    key and trace. Let [clean] be the generated text with the bold tag
    replaced by the plain one. If [clean] has no "SEARCH_QUERY:", the
    explanation is the generated text and the topic is "Computer Science
    Core". Otherwise the explanation is the text before the first tag,
    stripped, and the topic is the text after it up to the next tag if there
    is one, stripped. The cached video search and the cached web search
    (category "cs") are both called on that topic; unless the cache replays
    an earlier call, the provider is asked: for 2 videos on the topic, and
    for the topic under the site filter of the first four "cs" domains. The
    articles are [ensure_links] of the web results and are not empty, the
    category is "Syllabus", and there are at most 2 videos when the video
    provider returns no more than the 2 it is asked for. *)
Theorem C2_summarize_route (context api_key : string) (tr : trace) :
  exists full tr1 summary topic videos tr2 raw tr3 articles,
    generate_text (get_llm_handler api_key) (summarize_prompt context) tr
    = (Ok full, tr1)
    /\ (let clean := Str.replace "**SEARCH_QUERY:**" "SEARCH_QUERY:" full in
        (Str.contains "SEARCH_QUERY:" clean = false ->
         summary = full /\ topic = "Computer Science Core")
        /\ (Str.contains "SEARCH_QUERY:" clean = true ->
            exists before after,
              clean = before +:+ "SEARCH_QUERY:" +:+ after
              /\ (forall before' after',
                    clean = before' +:+ "SEARCH_QUERY:" +:+ after' ->
                    (String.length before <= String.length before')%nat)
              /\ summary = Str.strip before
              /\ topic = Str.strip (until_marker "SEARCH_QUERY:" after)
              /\ (Str.contains "SEARCH_QUERY:" after = false ->
                  topic = Str.strip after)))
    /\ cached_video_search (VStr topic) tr1 = (Ok videos, tr2)
    /\ (video_cache tr1 (VStr topic) = None ->
        tr2 = tr1 ++ [EvYoutubeSearch (VStr topic) 2])
    /\ ((forall made_at results,
           YoutubeSearch made_at (VStr topic) 2 = Ok results ->
           (length results <= 2)%nat) ->
        (length videos <= 2)%nat)
    /\ cached_web_search (VStr topic) (VStr "cs") tr2 = (Ok raw, tr3)
    /\ (web_cache tr2 (VStr topic) (VStr "cs") = None ->
        exists rest,
          tr3 = tr2 ++ EvDDGS (VStr (topic +:+
                  " (site:geeksforgeeks.org OR site:w3schools.com OR site:freecodecamp.org OR site:stackoverflow.com)"))
                  "us-en" 4 :: rest)
    /\ ensure_links (VStr topic) raw = Ok articles
    /\ articles <> []
    /\ handle_request CMD_SUMMARIZE context api_key tr
       = (Ok {| explanation := VStr summary;
                category := VStr "Syllabus";
                book := VNone;
                videos := videos;
                articles := articles |},
          tr3).
Proof.
  destruct (generate_text_total (get_llm_handler api_key)
              (summarize_prompt context) tr) as (full & tr1' & Hgen & _).
  pose proof (summary_and_topic_run full) as Hparse.
  set (clean := Str.replace "**SEARCH_QUERY:**" marker full) in Hparse.
  set (parsed := match Str.partition marker clean with
                 | None => (full, "Computer Science Core")
                 | Some (before, after) =>
                     (Str.strip before, Str.strip (until_marker marker after))
                 end) in Hparse.
  destruct parsed as [summary topic] eqn:Hparsed.
  destruct (cached_video_search_run (VStr topic) (tr ++ tr1'))
    as (made_at & tr2 & Hyt & Hyt_miss & _).
  destruct (cached_web_search_total (VStr topic) "cs" tr2)
    as (raw & tr3 & Hweb & Hweb_miss & _).
  destruct (ensure_links_str topic raw) as (articles & Hlinks & Hne & _).
  eexists full, (tr ++ tr1'), summary, topic, _, tr2, raw, tr3, articles.
  split; [exact Hgen|]. split.
  { cbn zeta. fold marker clean. subst parsed. split.
    - intros Hc. apply partition_None in Hc. rewrite Hc in Hparsed.
      by injection Hparsed as <- <-.
    - intros Hc. destruct (contains_partition _ _ Hc) as (before & after & Hp).
      rewrite Hp in Hparsed. injection Hparsed as <- <-.
      exists before, after. split; [by apply partition_Some|].
      split; [intros b' a' Hc'; exact (partition_first marker clean before after b' a' Hp Hc')|].
      split; [done|]. split; [done|].
      intros Hafter. by rewrite until_marker_all. }
  split; [exact Hyt|]. split; [exact Hyt_miss|].
  split; [intros Hbound; apply found_videos_length; by apply Hbound|].
  split; [exact Hweb|]. split; [exact Hweb_miss|].
  split; [exact Hlinks|]. split; [exact Hne|].
  unfold handle_request. change (String.eqb CMD_SUMMARIZE CMD_SUMMARIZE) with true.
  cbn match.
  unfold mbind, M_bind at 1. rewrite Hgen.
  unfold mbind, M_bind at 1. unfold lift at 1. rewrite Hparse.
  unfold mbind, M_bind at 1. rewrite Hyt.
  unfold mbind, M_bind at 1. rewrite Hweb.
  unfold mbind, M_bind, lift. by rewrite Hlinks.
Qed.

End SummarizeClaim.

Lemma C7_chat_route_witness :
  @handle_request World.chatty "thanks!" EmptyString "key" []
  = (Ok {| explanation := VStr "Happy to help you learn.";
           category := VStr "chat";
           book := VNone;
           videos := [];
           articles := [] |},
     [EvGenerate json_model (@analyze_prompt "thanks!" EmptyString)]).
Proof.
  refine (proj1 (@C7_chat_route World.chatty "thanks!" EmptyString "key" [] _
                   {[ "category" := VStr "chat";
                      "explanation" := VStr "Happy to help you learn." ]}
                   _ _ _ _)).
  - done.
  - done.
  - reflexivity.
  - reflexivity.
Defined.

Lemma C3_fallback_route_witness :
  exists videos articles tr,
    @handle_request World.two_videos "binary search" EmptyString EmptyString []
    = (Ok {| explanation := VStr "API Key missing.";
             category := VStr "general";
             book := VNone;
             videos := videos;
             articles := articles |}, tr)
    /\ articles <> [].
Proof.
  destruct (@C3_fallback_route World.two_videos "binary search" EmptyString
              EmptyString [] [])
    as (text & tr2 & videos & tr3 & raw & tr4 & articles
        & Hgen & _ & _ & _ & _ & _ & Hne & _ & Hrun).
  - done.
  - done.
  - reflexivity.
  - injection Hgen as <- <-. exists videos, articles. eexists.
    split; [exact Hrun|exact Hne].
Defined.

Lemma C2_summarize_route_witness :
  exists summary videos articles tr,
    @handle_request World.summarizer CMD_SUMMARIZE "Week 1: sorting. Week 2: graphs." "key" []
    = (Ok {| explanation := VStr summary;
             category := VStr "Syllabus";
             book := VNone;
             videos := videos;
             articles := articles |}, tr)
    /\ (length videos <= 2)%nat
    /\ articles <> [].
Proof.
  destruct (@C2_summarize_route World.summarizer "Week 1: sorting. Week 2: graphs." "key" [])
    as (full & tr1 & summary & topic & videos & tr2 & raw & tr3 & articles
        & _ & _ & _ & _ & Hbound & _ & _ & _ & Hne & Hrun).
  exists summary, videos, articles. eexists.
  split; [exact Hrun|]. split; [|exact Hne].
  apply Hbound. intros made_at results [= <-]. cbn. lia.
Defined.

(** The summarize route at work: the bold tag is found, the text before it
    is the explanation, the text after it the topic of both searches, and the
    web searches finding nothing, the two fail-safe links are the articles. *)
Example summarize_run :
  @handle_request World.summarizer CMD_SUMMARIZE "Week 1: sorting. Week 2: graphs." "key" []
  = (Ok {| explanation := VStr ("1. Sorting" +:+ Str.nl +:+ "2. Graphs");
           category := VStr "Syllabus";
           book := VNone;
           videos :=
             [ {[ "url" := VStr "https://www.youtube.com/watch?v=a1";
                  "title" := VStr "Sorting, part 1";
                  "thumb" := VStr "https://i.ytimg.com/a1.jpg" ]};
               {[ "url" := VStr "https://www.youtube.com/watch?v=b2";
                  "title" := VStr "Sorting, part 2";
                  "thumb" := VStr "https://i.ytimg.com/b2.jpg" ]} ];
           articles :=
             [ {[ "title" := VStr "📖 Learn 'quicksort' on Khan Academy";
                  "link" := VStr "https://www.khanacademy.org/search?page_search_query=quicksort" ]};
               {[ "title" := VStr "🎓 Academic Papers: quicksort";
                  "link" := VStr "https://scholar.google.com/scholar?q=quicksort" ]} ] |},
     [ EvGenerate text_model
         (@summarize_prompt "Week 1: sorting. Week 2: graphs.");
       EvYoutubeSearch (VStr "quicksort") 2;
       EvDDGS (VStr "quicksort (site:geeksforgeeks.org OR site:w3schools.com OR site:freecodecamp.org OR site:stackoverflow.com)")
              "us-en" 4;
       EvDDGS (VStr "quicksort") "us-en" 5 ]).
Proof. vm_compute. reflexivity. Qed.

(** C1, at an input where it fails. The structured model answers a query
    with a JSON array: [analyze_query] returns the list, which is truthy, and
    [data.get("category")] raises an [AttributeError] that nothing in
    [handle_request] catches. *)
Lemma C1_json_array_escapes :
  @handle_request World.json_array "Explain recursion" EmptyString "key" []
  = (Raise (AttributeError (VList [VInt 1]) "get"),
     [EvGenerate json_model (@analyze_prompt "Explain recursion" EmptyString)]).
Proof. reflexivity. Qed.

(** The same with an object whose category is null: [category.lower()] in
    [search_web] stands outside its [try]. *)
Lemma null_category_escapes :
  fst (@handle_request World.null_category "Explain recursion" EmptyString "key" [])
  = Raise (AttributeError VNone "lower").
Proof. reflexivity. Qed.

(** ** Two more runs *)

(** The example of the specification: the web query is null, so the web
    search uses the raw query; "science" is no key of [TRUSTED_SITES], so the
    site filter is the general one; category and book are carried through. *)
Example standard_flow_run :
  @handle_request World.quantum "Explain Quantum Computing" EmptyString "key" []
  = (Ok {| explanation := VStr "Qubits ...";
           category := VStr "science";
           book := VStr "QM 101";
           videos := [];
           articles :=
             [ {[ "title" := VStr "Quantum computer";
                  "link" := VStr "https://www.britannica.com/technology/quantum-computer" ]} ] |},
     [ EvGenerate json_model (@analyze_prompt "Explain Quantum Computing" EmptyString);
       EvYoutubeSearch (VStr "quantum computing basics") 2;
       EvDDGS (VStr "Explain Quantum Computing (site:britannica.com OR site:bbc.com OR site:nytimes.com OR site:investopedia.com)")
              "us-en" 4 ]).
Proof. vm_compute. reflexivity. Qed.

(** A result that cannot be read ends the trusted search with the links
    made so far; as there is one, no general search follows. *)
Example trusted_search_interrupted :
  @search_web World.broken_web (VStr "graph theory") (VStr "general") []
  = (Ok [ {[ "title" := VStr "Graph theory";
             "link" := VStr "https://www.britannica.com/topic/graph-theory" ]} ],
     [EvDDGS (VStr "graph theory (site:britannica.com OR site:bbc.com OR site:nytimes.com OR site:investopedia.com)")
             "us-en" 4]).
Proof. vm_compute. reflexivity. Qed.

(** A cache hit replays the videos of the earlier search and asks the
    provider nothing. *)
Example cached_search_replays (tr : trace) :
  exists videos,
    @cached_video_search World.warm_video_cache (VStr "sorting") tr = (Ok videos, tr)
    /\ length videos = 2%nat.
Proof. by eexists. Qed.
